(** * rest_framework/response.py

    A shallow embedding of the two classes of [rest_framework/response.py]:

    - [HttpResponseMessage], the table of default messages per HTTP status
      code, with its class method [get_message] and its call form;
    - [Response], the response whose body is produced late, by the renderer
      that content negotiation attaches to it.

    Python values are embedded in the type [PyVal]; a call that may raise
    returns a [result].  The [assert] statements of the source are modelled
    as executed, which is the interpreter's default mode. *)

From stdpp Require Import gmap strings list pretty.
From Stdlib Require Import ZArith Lia.

#[local] Set Warnings "-register-all".
#[local] Open Scope string_scope.
#[local] Open Scope Z_scope.

(** ** Python values *)

(** A renderer object, as far as [Response] looks at it: the two class
    attributes [media_type] and [charset], and the class it is an instance
    of (what [render] does is decided by that class). *)
Record Renderer : Type := {
  renderer_class : string;
  media_type : string;
  charset : option string;
}.

Inductive PyVal : Type :=
  | PyNone
  | PyBool (b : bool)
  | PyInt (n : Z)
  | PyStr (s : string)
  | PyBytes (bs : list Byte.byte)
  | PyList (l : list PyVal)
  | PyDict (d : gmap string PyVal)
  | PyRenderer (r : Renderer)
  | PySerializer (oid : N)   (* an instance of [Serializer] or of a subclass *)
  | PyObject (oid : N)       (* an instance of any other class *)
  | PyThisResponse.          (* a reference to the response object itself *)

Inductive PyExc : Type :=
  | AssertionError (msg : string)
  | AttributeError (msg : string)
  | TypeError (msg : string)
  | OtherError (name : string).

Inductive result (A : Type) : Type :=
  | Ok (a : A)
  | Raise (e : PyExc).
Arguments Ok {A} a.
Arguments Raise {A} e.

Definition result_bind {A B} (r : result A) (k : A -> result B) : result B :=
  match r with
  | Ok a => k a
  | Raise e => Raise e
  end.

Definition result_map {A B} (f : A -> B) (r : result A) : result B :=
  result_bind r (fun a => Ok (f a)).

(** [bool(v)]: the truth value Python gives a value in [if], [not] and
    [assert].  Instances of classes without [__bool__] or [__len__] are
    true. *)
Definition truthy (v : PyVal) : bool :=
  match v with
  | PyNone => false
  | PyBool b => b
  | PyInt n => negb (n =? 0)
  | PyStr s => negb (String.eqb s "")
  | PyBytes bs => negb (Nat.eqb (length bs) 0)
  | PyList l => negb (Nat.eqb (length l) 0)
  | PyDict d => negb (Nat.eqb (size d) 0)
  | PyRenderer _ | PySerializer _ | PyObject _ | PyThisResponse => true
  end.

(** [isinstance(v, int)]; [bool] is a subclass of [int]. *)
Definition isinstance_int (v : PyVal) : bool :=
  match v with
  | PyInt _ | PyBool _ => true
  | _ => false
  end.

(** The integer a value of type [int] (or [bool]) compares as. *)
Definition int_value (v : PyVal) : Z :=
  match v with
  | PyInt n => n
  | PyBool b => if b then 1 else 0
  | _ => 0
  end.

(** [isinstance(v, str)] and [isinstance(v, Serializer)]. *)
Definition isinstance_str (v : PyVal) : bool :=
  match v with PyStr _ => true | _ => false end.

Definition isinstance_Serializer (v : PyVal) : bool :=
  match v with PySerializer _ => true | _ => false end.

(** ['%s' % v] for the values that [get_message] formats after its
    assertion has passed: the decimal numeral of an integer. *)
Definition format_s (v : PyVal) : string :=
  match v with
  | PyInt n => pretty n
  | PyBool b => if b then "True" else "False"
  | PyStr s => s
  | _ => ""
  end.

(** ** HttpResponseMessage *)

(** A class is embedded as its namespace: attribute name to value.
    [hasattr] and [getattr] are lookups in it. *)
Definition hasattr (cls : gmap string PyVal) (name : string) : bool :=
  bool_decide (is_Some (cls !! name)).

Definition getattr (cls : gmap string PyVal) (name : string) : result PyVal :=
  match cls !! name with
  | Some v => Ok v
  | None => Raise (AttributeError name)
  end.

Definition http_default : string :=
  "服务可能发生了一点点小问题，程序员哥哥正在加班处理..".
Definition http_200 : string := "success".
Definition http_201 : string := "资源创建成功".
Definition http_400 : string :=
  "无法执行您的操作，可能是参数等必要条件不足，请按流程重新执行".
Definition http_401 : string :=
  "糟糕，您的登陆信息失效或异常，可重新登陆后在尝试".
Definition http_403 : string := "糟糕，您没有权限访问此资源".
Definition http_404 : string := "您请求的资源不存在".
Definition http_405 : string := "不支持此方式请求，请以正确的姿势进入".
Definition http_429 : string := "请求过快，请降低访问频率".
Definition http_500 : string := "处理异常，服务器可能抽风了".

(** The data attributes of the class.  Its two methods, and what it inherits
    from [object], have names that are not [http_] followed by a numeral, so
    they play no part in the lookup. *)
Definition HttpResponseMessage : gmap string PyVal :=
  list_to_map [
    ("http_default", PyStr http_default);
    ("http_200", PyStr http_200);
    ("http_201", PyStr http_201);
    ("http_400", PyStr http_400);
    ("http_401", PyStr http_401);
    ("http_403", PyStr http_403);
    ("http_404", PyStr http_404);
    ("http_405", PyStr http_405);
    ("http_429", PyStr http_429);
    ("http_500", PyStr http_500)
  ].

Definition code_message : string := "code Must be a standard HTTP status code".

(** [HttpResponseMessage.get_message], a class method: [cls] is the class it
    is called on. *)
Definition get_message (cls : gmap string PyVal) (code : PyVal) : result PyVal :=
  if isinstance_int code && ((200 <=? int_value code) && (int_value code <? 600))
  then
    if hasattr cls ("http_" +:+ format_s code)
    then getattr cls ("http_" +:+ format_s code)
    else getattr cls "http_default"
  else Raise (AssertionError code_message).

(** [HttpResponseMessage.__call__(self, code, *args, **kwargs)]: [cls] is the
    class of [self], [args] and [kwargs] are what the call binds to the two
    starred parameters. *)
Definition __call__ (cls : gmap string PyVal) (code : PyVal)
    (args : list PyVal) (kwargs : list (string * PyVal)) : result PyVal :=
  get_message cls code.

(** The table of section 4.2 of the specification, written out: one message
    per listed code, one default for the rest. *)
Definition status_message (n : Z) : string :=
  match n with
  | 200 => http_200
  | 201 => http_201
  | 400 => http_400
  | 401 => http_401
  | 403 => http_403
  | 404 => http_404
  | 405 => http_405
  | 429 => http_429
  | 500 => http_500
  | _ => http_default
  end.

(** [Lookup] as the specification words it: an integer in [200, 600) gets
    the message of the table, anything else the precondition error. *)
Definition Lookup (code : PyVal) : result PyVal :=
  match code with
  | PyInt n =>
      if (200 <=? n) && (n <? 600) then Ok (PyStr (status_message n))
      else Raise (AssertionError code_message)
  | _ => Raise (AssertionError code_message)
  end.

(** ** The framework's response class *)

(** [Response] extends the framework's [SimpleTemplateResponse], whose code
    is not in this file.  The class below lists what [Response] uses of it:
    the initialiser (called with the status; it may raise), and the
    header protocol [self[name] = value], [del self[name]] and a read access.
    [header_key] is the form under which the framework files a header name
    (header names are compared through it).  The framework refuses some
    assignments (a value with a line break, for one): [header_error] is the
    exception it then raises, and [setitem] is the assignment it accepts. *)
Class HttpResponseBase (B : Type) : Type := {
  base_init : PyVal -> result B;
  header_key : string -> string;
  header_error : string -> string -> option PyExc;
  setitem : string -> string -> B -> B;
  delitem : string -> B -> B;
  getitem : string -> B -> option string;
}.

(** The header protocol is that of a mapping. *)
Class HeaderMapping (B : Type) `{HttpResponseBase B} : Prop := {
  getitem_setitem (k k' v : string) (b : B) :
    getitem k (setitem k' v b) =
      if decide (header_key k = header_key k') then Some v else getitem k b;
  getitem_delitem (k k' : string) (b : B) :
    getitem k (delitem k' b) =
      if decide (header_key k = header_key k') then None else getitem k b;
}.

(** ** Response *)

Section Response.
Context {B : Type} `{HttpResponseBase B}.

(** The attributes of a [Response] object.  [base] is the part the
    framework class keeps (status code, headers).  The three attributes
    that content negotiation sets later are absent ([None]) until then. *)
Record Response : Type := {
  base : B;
  data : PyVal;
  template_name : PyVal;
  exception : PyVal;
  content_type : option string;
  accepted_renderer : option PyVal;
  accepted_media_type : option PyVal;
  renderer_context : option PyVal;
}.

Definition set_base (f : B -> B) (self : Response) : Response :=
  {| base := f (base self);
     data := data self;
     template_name := template_name self;
     exception := exception self;
     content_type := content_type self;
     accepted_renderer := accepted_renderer self;
     accepted_media_type := accepted_media_type self;
     renderer_context := renderer_context self |}.

Definition set_renderer_context (c : PyVal) (self : Response) : Response :=
  {| base := base self;
     data := data self;
     template_name := template_name self;
     exception := exception self;
     content_type := content_type self;
     accepted_renderer := accepted_renderer self;
     accepted_media_type := accepted_media_type self;
     renderer_context := Some c |}.

Definition serializer_message : string :=
  "You passed a Serializer instance as data, but probably meant to pass serialized `.data` or `.error`. representation.".

(** [self[name] = value] for a header the caller passes: the framework
    raises, or files the value. *)
Definition header_assignment (name value : string) (self : Response)
    : result Response :=
  match header_error name value with
  | Some e => Raise e
  | None => Ok (set_base (setitem name value) self)
  end.

(** [Response.__init__].  [headers] is [None] or the items of the mapping
    passed, in its iteration order; the loop ends at the first assignment
    that raises. *)
Definition __init__ (data status template_name : PyVal)
    (headers : option (list (string * string)))
    (exception : PyVal) (content_type : option string) : result Response :=
  result_bind (base_init status) (fun b =>
    if isinstance_Serializer data then Raise (AssertionError serializer_message)
    else
      let self :=
        {| base := b;
           data := data;
           template_name := template_name;
           exception := exception;
           content_type := content_type;
           accepted_renderer := None;
           accepted_media_type := None;
           renderer_context := None |} in
      match headers with
      | Some ((_ :: _) as items) =>
          fold_left
            (fun done '(name, value) =>
               result_bind done (header_assignment name value))
            items (Ok self)
      | _ => Ok self
      end).

(** *** Mutation and errors

    [rendered_content] changes the response and may raise after it has
    changed it: a computation takes the response and gives the response
    back with a value or an exception. *)
Definition M (A : Type) : Type := Response -> Response * result A.

Definition mret {A} (a : A) : M A := fun self => (self, Ok a).

Definition mraise {A} (e : PyExc) : M A := fun self => (self, Raise e).

Definition mbind {A C} (m : M A) (k : A -> M C) : M C :=
  fun self =>
    match m self with
    | (self', Ok a) => k a self'
    | (self', Raise e) => (self', Raise e)
    end.

Definition lift {A} (r : result A) : M A := fun self => (self, r).

Definition read {A} (f : Response -> A) : M A := fun self => (self, Ok (f self)).

Definition update (f : Response -> Response) : M unit :=
  fun self => (f self, Ok tt).

Definition assert_ (b : bool) (msg : string) : M unit :=
  if b then mret tt else mraise (AssertionError msg).

Notation "x <- m ;; k" := (mbind m (fun x => k))
  (at level 100, m at next level, right associativity).
Notation "m ;;; k" := (mbind m (fun _ => k))
  (at level 100, right associativity).

(** [getattr(self, name, None)] *)
Definition getattr_or_None (attr : option PyVal) : PyVal :=
  match attr with
  | Some v => v
  | None => PyNone
  end.

Definition is_not_None (v : PyVal) : bool :=
  match v with PyNone => false | _ => true end.

(** [context['response'] = self]: the context is the object the response
    refers to as [renderer_context], so the assignment shows there too. *)
Definition context_set_response (context : PyVal) : M PyVal :=
  match context with
  | PyDict d =>
      let context := PyDict (<["response" := PyThisResponse]> d) in
      update (set_renderer_context context) ;;;
      mret context
  | _ => mraise (TypeError "object does not support item assignment")
  end.

(** [renderer.media_type] and [renderer.charset] *)
Definition attr_media_type (renderer : PyVal) : result string :=
  match renderer with
  | PyRenderer r => Ok (media_type r)
  | _ => Raise (AttributeError "media_type")
  end.

Definition attr_charset (renderer : PyVal) : result (option string) :=
  match renderer with
  | PyRenderer r => Ok (charset r)
  | _ => Raise (AttributeError "charset")
  end.

Definition charset_truthy (charset : option string) : bool :=
  match charset with
  | Some c => negb (String.eqb c "")
  | None => false
  end.

(** The two calls that leave the file: [renderer.render(data, media_type,
    context)], which sees the response through [context] and may change
    it, and [str.encode(charset)]. *)
Variable render : Renderer -> PyVal -> PyVal -> PyVal -> M PyVal.
Variable encode : string -> string -> result (list Byte.byte).

Definition call_render (renderer data accepted_media_type context : PyVal)
    : M PyVal :=
  match renderer with
  | PyRenderer r => render r data accepted_media_type context
  | _ => mraise (AttributeError "render")
  end.

Definition call_encode (ret : string) (charset : option string) : result PyVal :=
  match charset with
  | Some c => result_map PyBytes (encode ret c)
  | None => Raise (TypeError "encode() argument must be str, not None")
  end.

(** The property [Response.rendered_content].  Its header assignment is that
    of the content type, taken as one the framework accepts. *)
Definition rendered_content : M PyVal :=
  renderer <- read (fun self => getattr_or_None (accepted_renderer self)) ;;
  accepted_media_type <-
    read (fun self => getattr_or_None (accepted_media_type self)) ;;
  context <- read (fun self => getattr_or_None (renderer_context self)) ;;

  assert_ (truthy renderer) ".accepted_renderer not set on Response" ;;;
  assert_ (truthy accepted_media_type)
    ".accepted_media_type not set on Response" ;;;
  assert_ (is_not_None context) ".renderer_context not set on Response" ;;;
  context <- context_set_response context ;;

  media_type <- lift (attr_media_type renderer) ;;
  charset <- lift (attr_charset renderer) ;;
  content_type <- read content_type ;;

  let content_type :=
    match content_type, charset with
    | None, Some charset => media_type +:+ "; charset=" +:+ charset
    | None, None => media_type
    | Some content_type, _ => content_type
    end in
  update (set_base (setitem "Content-Type" content_type)) ;;;

  data <- read data ;;
  ret <- call_render renderer data accepted_media_type context ;;
  match ret with
  | PyStr text =>
      assert_ (charset_truthy charset)
        "renderer returned unicode, and did not specify a charset value." ;;;
      lift (call_encode text charset)
  | _ =>
      (if negb (truthy ret)
       then update (set_base (delitem "Content-Type"))
       else mret tt) ;;;
      mret ret
  end.

(** [super().__getstate__()], the framework's part of [__getstate__]: the
    attribute dictionary it returns for the response, unless it raises. *)
Variable super_getstate : Response -> result (gmap string PyVal).

Definition uncached_keys : list string :=
  ["accepted_renderer"; "renderer_context"; "resolver_match";
   "client"; "request"; "json"; "wsgi_request"].

(** [Response.__getstate__] *)
Definition __getstate__ (self : Response) : result (gmap string PyVal) :=
  result_bind (super_getstate self) (fun state =>
    let state :=
      fold_left
        (fun state key =>
           if bool_decide (is_Some (state !! key)) then delete key state
           else state)
        uncached_keys state in
    Ok (<["_closable_objects" := PyList []]> state)).

End Response.

Arguments Response B : clear implicits.
Arguments M B A : clear implicits.

(** ** What the statements below are written with *)

(** The Content-Type header as section 4.1 of the specification words it:
    the declared content type if there is one; otherwise the renderer's media
    type, with its charset when it has one. *)
Definition content_type_header (declared : option string) (r : Renderer) : string :=
  match declared with
  | Some c => c
  | None =>
      match charset r with
      | Some cs => media_type r +:+ "; charset=" +:+ cs
      | None => media_type r
      end
  end.

(** The context a renderer is called with: the attached mapping, with the
    response under the key [response]. *)
Definition render_context (d : gmap string PyVal) : PyVal :=
  PyDict (<["response" := PyThisResponse]> d).

(** The response a renderer is called on: the context entry and the
    Content-Type header are in place. *)
Definition prepared `{HttpResponseBase B}
    (self : Response B) (r : Renderer) (d : gmap string PyVal) : Response B :=
  set_base
    (setitem "Content-Type" (content_type_header (content_type self) r))
    (set_renderer_context (render_context d) self).

(** What [rendered_content] makes of the outcome of the renderer's call. *)
Definition after_render `{HttpResponseBase B}
    (encode : string -> string -> result (list Byte.byte))
    (r : Renderer) (outcome : Response B * result PyVal)
    : Response B * result PyVal :=
  match outcome with
  | (self, Raise e) => (self, Raise e)
  | (self, Ok (PyStr text)) =>
      match charset r with
      | Some cs =>
          if String.eqb cs ""
          then (self, Raise (AssertionError
                  "renderer returned unicode, and did not specify a charset value."))
          else (self, result_map PyBytes (encode text cs))
      | None =>
          (self, Raise (AssertionError
             "renderer returned unicode, and did not specify a charset value."))
      end
  | (self, Ok ret) =>
      if truthy ret then (self, Ok ret)
      else (set_base (delitem "Content-Type") self, Ok ret)
  end.

(** The header assignments of [__init__], seen on the framework's part of
    the response. *)
Definition assign_headers `{HttpResponseBase B}
    (items : list (string * string)) (b : B) : B :=
  fold_left (fun b '(name, value) => setitem name value b) items b.

(** The framework accepts the assignment of every entry. *)
Definition accepted `{HttpResponseBase B}
    (items : list (string * string)) : Prop :=
  forall name value, In (name, value) items -> header_error name value = None.

(** The table check behind the comparison of [get_message] with [Lookup]. *)
Definition agrees_with_table (n : Z) : bool :=
  match get_message HttpResponseMessage (PyInt n) with
  | Ok (PyStr s) => String.eqb s (status_message n)
  | _ => false
  end.

(** ** A framework to run the definitions on

    A plain model of the framework class, close to Django's: a status code
    converted with [int] and checked against 100..599, and the headers filed
    under their lower-cased names, a value kept as it is given (header
    values are Latin-1 text here) and one with a line break refused; a
    JSON-like renderer; the UTF-8, UTF-16 and ASCII codecs on strings held
    as UTF-8 bytes. *)
Module Example.

Definition lower_ascii (c : Ascii.ascii) : Ascii.ascii :=
  let n := Ascii.N_of_ascii c in
  if ((65 <=? n) && (n <=? 90))%N then Ascii.ascii_of_N (n + 32) else c.

Fixpoint lower (s : string) : string :=
  match s with
  | EmptyString => EmptyString
  | String c s => String (lower_ascii c) (lower s)
  end.

Record HttpResponse : Type := {
  status_code : Z;
  headers : gmap string string;
}.

Definition initial (status : Z) : HttpResponse :=
  {| status_code := status;
     headers := {[ "content-type" := "text/html; charset=utf-8" ]} |}.

(** [int(status)] for a status given as text: white space around an
    optional sign and decimal digits, which single underscores may
    separate (ASCII text). *)
Definition is_space (c : Ascii.ascii) : bool :=
  let n := Ascii.N_of_ascii c in
  ((n =? 32) || ((9 <=? n) && (n <=? 13)) || ((28 <=? n) && (n <=? 31)))%N.

Fixpoint lstrip (s : string) : string :=
  match s with
  | String c s' => if is_space c then lstrip s' else s
  | EmptyString => EmptyString
  end.

Fixpoint rstrip (s : string) : string :=
  match s with
  | String c s' =>
      match rstrip s' with
      | EmptyString => if is_space c then EmptyString else String c EmptyString
      | rest => String c rest
      end
  | EmptyString => EmptyString
  end.

Fixpoint digits (s : string) (value : Z) (after_digit : bool) : option Z :=
  match s with
  | EmptyString => if after_digit then Some value else None
  | String c s' =>
      let n := Ascii.N_of_ascii c in
      if (n =? 95)%N then
        if after_digit then digits s' value false else None
      else if ((48 <=? n) && (n <=? 57))%N then
        digits s' (10 * value + Z.of_N (n - 48)) true
      else None
  end.

Definition int_of_text (s : string) : option Z :=
  match rstrip (lstrip s) with
  | String c s' =>
      let n := Ascii.N_of_ascii c in
      if (n =? 45)%N then Z.opp <$> digits s' 0 false
      else if (n =? 43)%N then digits s' 0 false
      else digits (String c s') 0 false
  | EmptyString => None
  end.

(** [int(status)], where it is defined. *)
Definition int_of (status : PyVal) : option Z :=
  match status with
  | PyInt n => Some n
  | PyBool b => Some (if b then 1 else 0)
  | PyStr s => int_of_text s
  | PyBytes bs => int_of_text (String.string_of_list_byte bs)
  | _ => None
  end.

(** The initialiser: no status is 200; any other is converted with [int]
    and must lie in 100..599. *)
Definition init (status : PyVal) : result HttpResponse :=
  match status with
  | PyNone => Ok (initial 200)
  | _ =>
      match int_of status with
      | Some n =>
          if (100 <=? n) && (n <=? 599) then Ok (initial n)
          else Raise (OtherError "ValueError")
      | None => Raise (TypeError "HTTP status code must be an integer.")
      end
  end.

(** The assignments the framework refuses: a name or a value with a line
    break, and a name that is not ASCII. *)
Definition has_line_break (s : string) : bool :=
  existsb (fun b => (Byte.to_N b =? 10)%N || (Byte.to_N b =? 13)%N)
    (String.list_byte_of_string s).

Definition refused (name value : string) : option PyExc :=
  if has_line_break name then Some (OtherError "BadHeaderError")
  else if existsb (fun b => (128 <=? Byte.to_N b)%N)
            (String.list_byte_of_string name)
  then Some (OtherError "UnicodeEncodeError")
  else if has_line_break value then Some (OtherError "BadHeaderError")
  else None.

#[global] Instance http_response : HttpResponseBase HttpResponse := {|
  base_init := init;
  header_key := lower;
  header_error := refused;
  setitem name value b :=
    {| status_code := status_code b;
       headers := <[lower name := value]> (headers b) |};
  delitem name b :=
    {| status_code := status_code b;
       headers := delete (lower name) (headers b) |};
  getitem name b := headers b !! lower name;
|}.

(** A renderer that gives no body for [None], text for a string, and a
    fixed non-empty body otherwise; it leaves the response alone. *)
Definition render (r : Renderer) (data accepted_media_type context : PyVal)
    : M HttpResponse PyVal :=
  match data with
  | PyNone => mret (PyBytes [])
  | PyStr s => mret (PyStr s)
  | _ => mret (PyBytes [Byte.x7b; Byte.x7d])
  end.

Definition is_ascii (s : string) : bool :=
  forallb (fun b => (Byte.to_N b <? 128)%N) (String.list_byte_of_string s).

(** The code points of a text held as UTF-8 bytes. *)
Fixpoint code_points (bs : list N) : list N :=
  match bs with
  | [] => []
  | b0 :: rest =>
      if (b0 <? 128)%N then b0 :: code_points rest
      else
        match rest with
        | [] => []
        | b1 :: rest1 =>
            if (b0 <? 224)%N then
              ((b0 - 192) * 64 + (b1 - 128))%N :: code_points rest1
            else
              match rest1 with
              | [] => []
              | b2 :: rest2 =>
                  if (b0 <? 240)%N then
                    ((b0 - 224) * 4096 + (b1 - 128) * 64 + (b2 - 128))%N
                    :: code_points rest2
                  else
                    match rest2 with
                    | [] => []
                    | b3 :: rest3 =>
                        ((b0 - 240) * 262144 + (b1 - 128) * 4096 +
                         (b2 - 128) * 64 + (b3 - 128))%N
                        :: code_points rest3
                    end
              end
        end
  end.

Definition byte_of (n : N) : Byte.byte :=
  default Byte.x00 (Byte.of_N (n mod 256)).

(** One code point in UTF-16, low byte first. *)
Definition utf16_unit (u : N) : list Byte.byte :=
  [byte_of u; byte_of (u / 256)].

Definition utf16_le (cp : N) : list Byte.byte :=
  if (cp <? 65536)%N then utf16_unit cp
  else
    (utf16_unit (55296 + (cp - 65536) / 1024) ++
     utf16_unit (56320 + (cp - 65536) mod 1024))%list.

(** [text.encode(charset)] for UTF-8, for UTF-16 (a byte order mark, then
    the text low byte first, as on a little-endian machine) and for ASCII;
    another name is an unknown codec. *)
Definition encode (text charset : string) : result (list Byte.byte) :=
  if String.eqb (lower charset) "utf-8" then Ok (String.list_byte_of_string text)
  else if String.eqb (lower charset) "utf-16" then
    Ok (Byte.xff :: Byte.xfe ::
        concat (utf16_le <$>
                  code_points (Byte.to_N <$> String.list_byte_of_string text)))
  else if String.eqb (lower charset) "ascii" then
    if is_ascii text then Ok (String.list_byte_of_string text)
    else Raise (OtherError "UnicodeEncodeError")
  else Raise (OtherError "LookupError").

Definition option_entry (name : string) (attr : option PyVal)
    (state : gmap string PyVal) : gmap string PyVal :=
  match attr with
  | Some v => <[name := v]> state
  | None => state
  end.

(** The attribute dictionary of the response, for [__getstate__]. *)
Definition getstate (self : Response HttpResponse)
    : result (gmap string PyVal) :=
  Ok (option_entry "accepted_renderer" (accepted_renderer self)
       (option_entry "accepted_media_type" (accepted_media_type self)
         (option_entry "renderer_context" (renderer_context self)
           (<["data" := data self]>
             (<["exception" := exception self]>
               (<["status_code" := PyInt (status_code (base self))]>
                 (<["request" := PyObject 7]>
                   {[ "_closable_objects" := PyList [PyObject 8] ]}))))))).

Definition json : Renderer :=
  {| renderer_class := "JSONRenderer";
     media_type := "application/json";
     charset := Some "utf-8" |}.

Definition binary : Renderer :=
  {| renderer_class := "BinaryRenderer";
     media_type := "application/octet-stream";
     charset := None |}.

Definition utf16_text : Renderer :=
  {| renderer_class := "PlainTextRenderer";
     media_type := "text/plain";
     charset := Some "utf-16" |}.

(** A response as [__init__] leaves it, then with attributes attached. *)
Definition response (data : PyVal) (declared : option string)
    (renderer media context : option PyVal) : Response HttpResponse :=
  {| base := initial 200;
     data := data;
     template_name := PyNone;
     exception := PyBool false;
     content_type := declared;
     accepted_renderer := renderer;
     accepted_media_type := media;
     renderer_context := context |}.

End Example.

(** ** Response.status_text *)

(** The status code is kept by the framework class; [responses] is the table
    of reason phrases of [http.client]. *)
Class HasStatusCode (B : Type) : Type := status_code : B -> Z.

(** The property [Response.status_text]: [responses.get(self.status_code, '')]. *)
Definition status_text `{HasStatusCode B}
    (responses : gmap Z string) (self : Response B) : string :=
  default "" (responses !! status_code (base self)).

#[global] Instance example_status_code : HasStatusCode Example.HttpResponse :=
  Example.status_code.

(** ** Subclasses of HttpResponseMessage *)

(** The namespace that attribute lookup sees on a subclass: the attributes
    the subclass defines itself, then those of the class it extends. *)
Definition subclass (own parent : gmap string PyVal) : gmap string PyVal :=
  own ∪ parent.

(** The codes that [HttpResponseMessage] has a message of their own for. *)
Definition own_message_codes : list Z :=
  [200; 201; 400; 401; 403; 404; 405; 429; 500].

Definition has_own_message (n : Z) : bool :=
  existsb (Z.eqb n) own_message_codes.

(** The check of one code against the namespace of [HttpResponseMessage]. *)
Definition namespace_agrees (n : Z) : bool :=
  negb (String.eqb (pretty n) "default") &&
  negb (String.eqb (status_message n) "") &&
  match HttpResponseMessage !! ("http_" +:+ pretty n) with
  | Some (PyStr s) => has_own_message n && String.eqb s (status_message n)
  | Some _ => false
  | None => negb (has_own_message n)
  end.

(** ** More to run the definitions on *)
Module Sample.

(** A renderer that fails, and one that returns [None]. *)
Definition failing_render (r : Renderer)
    (data accepted_media_type context : PyVal)
    : M Example.HttpResponse PyVal :=
  mraise (OtherError "ParseError").

Definition null_render (r : Renderer)
    (data accepted_media_type context : PyVal)
    : M Example.HttpResponse PyVal :=
  mret PyNone.

(** A framework [__getstate__] that hands over a dictionary with a request
    and a closable object for a response with data, and a bare one
    otherwise. *)
Definition getstate (self : Response Example.HttpResponse)
    : result (gmap string PyVal) :=
  if truthy (data self)
  then Ok (<["data" := PyInt 1]>
            (<["request" := PyObject 7]>
              {[ "_closable_objects" := PyList [PyObject 8] ]}))
  else Ok (<["data" := PyInt 1]> {[ "_closable_objects" := PyList [] ]}).

(** A header value of two lines. *)
Definition two_lines : string :=
  "a" +:+ String (Ascii.ascii_of_N 10) "b".

(** What a subclass of [HttpResponseMessage] defines: its own message for
    404 and its own default. *)
Definition own : gmap string PyVal :=
  <["http_404" := PyStr "gone"]> {[ "http_default" := PyStr "?" ]}.

Definition responses : gmap Z string :=
  <[200 := "OK"]> {[ 404 := "Not Found" ]}.

End Sample.

(** * Properties *)

Lemma Ok_inj {A : Type} (a a' : A) : Ok a = Ok a' -> a = a'.
Proof. intros Heq. by injection Heq. Qed.

(** ** HttpResponseMessage *)

Lemma agrees_with_table_all : forallb agrees_with_table (seqZ 200 400) = true.
Proof. vm_compute. reflexivity. Qed.

Lemma get_message_in_range (n : Z) :
  200 <= n < 600 ->
  get_message HttpResponseMessage (PyInt n) = Ok (PyStr (status_message n)).
Proof.
  intros Hn.
  assert (Hin : In n (seqZ 200 400)).
  { apply list_elem_of_In, elem_of_seqZ. lia. }
  pose proof (proj1 (forallb_forall _ _) agrees_with_table_all n Hin) as Hag.
  unfold agrees_with_table in Hag.
  destruct (get_message HttpResponseMessage (PyInt n)) as [[]|]; try discriminate.
  apply String.eqb_eq in Hag. by subst.
Qed.

Lemma get_message_out_of_range (cls : gmap string PyVal) (n : Z) :
  ~ 200 <= n < 600 ->
  get_message cls (PyInt n) = Raise (AssertionError code_message).
Proof.
  intros Hn. unfold get_message. simpl.
  destruct (200 <=? n) eqn:Hlo; [|done].
  destruct (n <? 600) eqn:Hhi; [|done].
  apply Z.leb_le in Hlo. apply Z.ltb_lt in Hhi. lia.
Qed.

Lemma get_message_not_int (cls : gmap string PyVal) (code : PyVal) :
  (forall n, code <> PyInt n) ->
  get_message cls code = Raise (AssertionError code_message).
Proof.
  intros Hc. destruct code as [|[]| | | | | | | | |]; try reflexivity.
  by destruct (Hc n).
Qed.

Lemma get_message_Lookup (code : PyVal) :
  get_message HttpResponseMessage code = Lookup code.
Proof.
  destruct code as [|b|n| | | | | | | |]; try reflexivity.
  - by destruct b.
  - unfold Lookup.
    destruct ((200 <=? n) && (n <? 600)) eqn:Hr.
    + apply andb_prop in Hr as [Hlo Hhi].
      apply Z.leb_le in Hlo. apply Z.ltb_lt in Hhi.
      apply get_message_in_range. lia.
    + apply get_message_out_of_range. intros [Hlo Hhi].
      apply Z.leb_le in Hlo. apply Z.ltb_lt in Hhi.
      rewrite Hlo, Hhi in Hr. discriminate.
Qed.

Lemma get_message_attribute (cls : gmap string PyVal) (n : Z) :
  200 <= n < 600 ->
  get_message cls (PyInt n) =
    match cls !! ("http_" +:+ pretty n) with
    | Some m => Ok m
    | None => getattr cls "http_default"
    end.
Proof.
  intros [Hlo Hhi]. unfold get_message, hasattr, getattr at 1. simpl.
  apply Z.leb_le in Hlo. apply Z.ltb_lt in Hhi. rewrite Hlo, Hhi. simpl.
  destruct (cls !! ("http_" +:+ pretty n)) as [m|] eqn:Hm.
  - rewrite bool_decide_eq_true_2; [done | by eexists].
  - rewrite bool_decide_eq_false_2; [done | by intros [? ?]].
Qed.

(** C2.  [get_message], on the class [HttpResponseMessage], is the [Lookup]
    of the specification: for an integer code in [200, 600) it returns the
    message listed for that code and the one default message when none is
    listed ([Lookup(200)] is ['success'], [Lookup(201)] is the creation
    message, [Lookup(250)] is the default), and for any other argument,
    a non-integer or an integer out of range such as 999, it raises the
    assertion error.  On any class, the message is the attribute named after
    the code when there is one.  The result is a function of the class and
    the code alone: the model threads no state through it. *)
Theorem get_message_is_Lookup :
  (forall code : PyVal, get_message HttpResponseMessage code = Lookup code) /\
  (forall (cls : gmap string PyVal) (n : Z) (m : PyVal),
      200 <= n < 600 ->
      cls !! ("http_" +:+ pretty n) = Some m ->
      get_message cls (PyInt n) = Ok m) /\
  (forall (cls : gmap string PyVal) (n : Z),
      200 <= n < 600 ->
      cls !! ("http_" +:+ pretty n) = None ->
      get_message cls (PyInt n) = getattr cls "http_default") /\
  (forall (cls : gmap string PyVal) (code : PyVal),
      (forall n, 200 <= n < 600 -> code <> PyInt n) ->
      get_message cls code = Raise (AssertionError code_message)) /\
  get_message HttpResponseMessage (PyInt 200) = Ok (PyStr "success") /\
  get_message HttpResponseMessage (PyInt 201) = Ok (PyStr "资源创建成功") /\
  get_message HttpResponseMessage (PyInt 250) = Ok (PyStr http_default) /\
  get_message HttpResponseMessage (PyInt 999) =
    Raise (AssertionError code_message).
Proof.
  split; [|split; [|split; [|split]]].
  - apply get_message_Lookup.
  - intros cls n m Hn Hm. by rewrite get_message_attribute, Hm.
  - intros cls n Hn Hm. by rewrite get_message_attribute, Hm.
  - intros cls code Hc. destruct code as [|[]|n| | | | | | | |]; try reflexivity.
    apply get_message_out_of_range. intros Hn. by apply (Hc n).
  - repeat split; vm_compute; reflexivity.
Qed.

(** The lookup at 404, through the attribute and through the table. *)
Lemma get_message_is_Lookup_witness :
  get_message HttpResponseMessage (PyInt 404) = Ok (PyStr http_404) /\
  get_message HttpResponseMessage (PyBool true) =
    Raise (AssertionError code_message).
Proof.
  split.
  - apply (proj1 (proj2 get_message_is_Lookup) HttpResponseMessage 404).
    + lia.
    + vm_compute. reflexivity.
  - apply (proj1 (proj2 (proj2 (proj2 get_message_is_Lookup)))).
    intros n _. discriminate.
Defined.

(** C8.  Called as a function, an [HttpResponseMessage] object returns what
    [get_message] returns for the code alone, whatever further positional
    and keyword arguments the call carries. *)
Theorem call_is_get_message
    (cls : gmap string PyVal) (code : PyVal)
    (args : list PyVal) (kwargs : list (string * PyVal)) :
  __call__ cls code args kwargs = get_message cls code /\
  __call__ cls code args kwargs = __call__ cls code [] [] /\
  __call__ HttpResponseMessage code args kwargs = Lookup code.
Proof.
  unfold __call__. split; [done | split; [done |]].
  apply get_message_Lookup.
Qed.

(** ** Response *)

Ltac run_M :=
  unfold mbind, read, assert_, lift, update, mret, mraise; simpl.

Section ResponseProperties.
Context {B : Type} {base_class : HttpResponseBase B}
  {mapping : HeaderMapping B}.
Variable render : Renderer -> PyVal -> PyVal -> PyVal -> M B PyVal.
Variable encode : string -> string -> result (list Byte.byte).
Variable super_getstate : Response B -> result (gmap string PyVal).

Implicit Types (self : Response B) (r : Renderer) (d : gmap string PyVal).

(** With the three attributes in place, [rendered_content] calls the
    renderer on the prepared response and finishes on its outcome. *)
Lemma rendered_content_attached self r m d :
  accepted_renderer self = Some (PyRenderer r) ->
  accepted_media_type self = Some m ->
  truthy m = true ->
  renderer_context self = Some (PyDict d) ->
  rendered_content render encode self =
    after_render encode r
      (render r (data self) m (render_context d) (prepared self r d)).
Proof.
  intros Hr Hm Ht Hc.
  unfold rendered_content, context_set_response, call_render. run_M.
  rewrite Hr, Hm, Hc. simpl. rewrite Ht. simpl.
  unfold prepared, content_type_header, render_context.
  destruct (content_type self) as [c|], (charset r) as [cs|] eqn:Hcs; simpl;
    match goal with
    | |- context [render ?a ?b ?c ?d ?e] =>
        destruct (render a b c d e) as [self2 [ret|e']]
    end; simpl; try done;
    destruct ret; simpl; rewrite ?Hcs, ?negb_involutive; simpl;
    try match goal with
        | |- context [negb ?b] => destruct b; simpl
        | |- context [if ?b then _ else _] => destruct b; simpl
        end;
    reflexivity.
Qed.

Lemma prepared_header self r d :
  getitem "Content-Type" (base (prepared self r d)) =
    Some (content_type_header (content_type self) r).
Proof.
  unfold prepared. simpl. rewrite getitem_setitem. by rewrite decide_True.
Qed.

(** The first assertion that fails gives the error; the response is as it
    was. *)
Lemma rendered_content_no_renderer self :
  truthy (getattr_or_None (accepted_renderer self)) = false ->
  rendered_content render encode self =
    (self, Raise (AssertionError ".accepted_renderer not set on Response")).
Proof.
  intros Hr. unfold rendered_content. run_M. by rewrite Hr.
Qed.

Lemma rendered_content_no_media_type self :
  truthy (getattr_or_None (accepted_renderer self)) = true ->
  truthy (getattr_or_None (accepted_media_type self)) = false ->
  rendered_content render encode self =
    (self, Raise (AssertionError ".accepted_media_type not set on Response")).
Proof.
  intros Hr Hm. unfold rendered_content. run_M. by rewrite Hr, Hm.
Qed.

Lemma rendered_content_no_context self :
  truthy (getattr_or_None (accepted_renderer self)) = true ->
  truthy (getattr_or_None (accepted_media_type self)) = true ->
  getattr_or_None (renderer_context self) = PyNone ->
  rendered_content render encode self =
    (self, Raise (AssertionError ".renderer_context not set on Response")).
Proof.
  intros Hr Hm Hc. unfold rendered_content. run_M. by rewrite Hr, Hm, Hc.
Qed.

(** What [rendered_content] does after a renderer's call that gave text,
    and after one that gave something else. *)
Lemma after_render_text self2 r text :
  after_render encode r (self2, Ok (PyStr text)) =
    if charset_truthy (charset r)
    then (self2, call_encode encode text (charset r))
    else (self2, Raise (AssertionError
            "renderer returned unicode, and did not specify a charset value.")).
Proof.
  unfold after_render, charset_truthy, call_encode.
  destruct (charset r) as [cs|]; [|done]. by destruct (String.eqb cs "").
Qed.

Lemma after_render_kept self2 r ret :
  isinstance_str ret || truthy ret = true ->
  fst (after_render encode r (self2, Ok ret)) = self2.
Proof.
  intros Hret. destruct ret; simpl in *;
    try (rewrite Hret; done); try done.
  destruct (charset r) as [cs|]; [|done]. by destruct (String.eqb cs "").
Qed.

(** C1.  When the renderer, the media type and the context are attached,
    [rendered_content] calls the renderer on a response whose Content-Type
    header is already set: to the declared content type when one was given
    to the constructor, whatever the renderer's media type; otherwise to
    ["<media_type>; charset=<charset>"] when the renderer's charset is not
    [None]; otherwise to the bare media type.  [rendered_content] itself
    removes the header again only for a result that is neither text nor
    true. *)
Theorem rendered_content_sets_content_type self r m d :
  accepted_renderer self = Some (PyRenderer r) ->
  accepted_media_type self = Some m ->
  truthy m = true ->
  renderer_context self = Some (PyDict d) ->
  let called_on := prepared self r d in
  let outcome := render r (data self) m (render_context d) called_on in
  rendered_content render encode self = after_render encode r outcome /\
  (forall c, content_type self = Some c ->
     getitem "Content-Type" (base called_on) = Some c) /\
  (forall cs, content_type self = None -> charset r = Some cs ->
     getitem "Content-Type" (base called_on) =
       Some (media_type r +:+ "; charset=" +:+ cs)) /\
  (content_type self = None -> charset r = None ->
     getitem "Content-Type" (base called_on) = Some (media_type r)) /\
  (forall self2 ret, outcome = (self2, Ok ret) ->
     isinstance_str ret || truthy ret = true ->
     fst (rendered_content render encode self) = self2).
Proof.
  intros Hr Hm Ht Hc called_on outcome.
  pose proof (rendered_content_attached self r m d Hr Hm Ht Hc) as Heq.
  pose proof (prepared_header self r d) as Hh.
  fold called_on in Heq, Hh. fold outcome in Heq.
  unfold content_type_header in Hh.
  split; [exact Heq|]. split; [|split; [|split]].
  - intros c Hd. by rewrite Hd in Hh.
  - intros cs Hd Hcs. by rewrite Hd, Hcs in Hh.
  - intros Hd Hcs. by rewrite Hd, Hcs in Hh.
  - intros self2 ret Ho Hret. rewrite Heq, Ho. by apply after_render_kept.
Qed.

(** C3.  When one of the three attributes has not been attached,
    [rendered_content] raises an assertion error and leaves the response as
    it was; each missing attribute has its own message. *)
Theorem rendered_content_requires_attachment self :
  accepted_renderer self = None \/
  accepted_media_type self = None \/
  renderer_context self = None ->
  (exists msg,
     rendered_content render encode self = (self, Raise (AssertionError msg))) /\
  (accepted_renderer self = None ->
     rendered_content render encode self =
       (self, Raise (AssertionError ".accepted_renderer not set on Response"))) /\
  (truthy (getattr_or_None (accepted_renderer self)) = true ->
   accepted_media_type self = None ->
     rendered_content render encode self =
       (self, Raise (AssertionError ".accepted_media_type not set on Response"))) /\
  (truthy (getattr_or_None (accepted_renderer self)) = true ->
   truthy (getattr_or_None (accepted_media_type self)) = true ->
   renderer_context self = None ->
     rendered_content render encode self =
       (self, Raise (AssertionError ".renderer_context not set on Response"))).
Proof.
  intros Hmiss. split; [|split; [|split]].
  - destruct (truthy (getattr_or_None (accepted_renderer self))) eqn:Hr.
    2: { eexists. by apply rendered_content_no_renderer. }
    destruct (truthy (getattr_or_None (accepted_media_type self))) eqn:Hm.
    2: { eexists. by apply rendered_content_no_media_type. }
    destruct Hmiss as [Hn | [Hn | Hn]].
    + rewrite Hn in Hr. discriminate.
    + rewrite Hn in Hm. discriminate.
    + eexists. apply rendered_content_no_context; [done | done |].
      by rewrite Hn.
  - intros Hn. apply rendered_content_no_renderer. by rewrite Hn.
  - intros Hr Hn. apply rendered_content_no_media_type; [done |].
    by rewrite Hn.
  - intros Hr Hm Hn. apply rendered_content_no_context; [done | done |].
    by rewrite Hn.
Qed.

(** C5.  When the renderer returns text: with no charset on the renderer
    ([None], or the empty string, which the assertion treats alike)
    [rendered_content] raises an assertion error; with a charset it returns
    what encoding the text with that charset gives. *)
Theorem text_result_is_encoded self r m d self2 text :
  accepted_renderer self = Some (PyRenderer r) ->
  accepted_media_type self = Some m ->
  truthy m = true ->
  renderer_context self = Some (PyDict d) ->
  render r (data self) m (render_context d) (prepared self r d) =
    (self2, Ok (PyStr text)) ->
  (charset r = None ->
     rendered_content render encode self =
       (self2, Raise (AssertionError
          "renderer returned unicode, and did not specify a charset value."))) /\
  (charset r = Some "" ->
     rendered_content render encode self =
       (self2, Raise (AssertionError
          "renderer returned unicode, and did not specify a charset value."))) /\
  (forall cs, charset r = Some cs -> cs <> "" ->
     rendered_content render encode self =
       (self2, result_map PyBytes (encode text cs))).
Proof.
  intros Hr Hm Ht Hc Ho.
  rewrite (rendered_content_attached self r m d Hr Hm Ht Hc), Ho.
  rewrite after_render_text.
  split; [|split].
  - intros Hcs. by rewrite Hcs.
  - intros Hcs. by rewrite Hcs.
  - intros cs Hcs Hne. rewrite Hcs. simpl.
    by rewrite (proj2 (String.eqb_neq cs "") Hne).
Qed.

(** C6.  When the renderer returns the empty byte string,
    [rendered_content] deletes the Content-Type header, so it is absent
    afterwards, and returns the empty byte string. *)
Theorem empty_bytes_remove_content_type self r m d self2 :
  accepted_renderer self = Some (PyRenderer r) ->
  accepted_media_type self = Some m ->
  truthy m = true ->
  renderer_context self = Some (PyDict d) ->
  render r (data self) m (render_context d) (prepared self r d) =
    (self2, Ok (PyBytes [])) ->
  rendered_content render encode self =
    (set_base (delitem "Content-Type") self2, Ok (PyBytes [])) /\
  getitem "Content-Type"
    (base (fst (rendered_content render encode self))) = None.
Proof.
  intros Hr Hm Ht Hc Ho.
  rewrite (rendered_content_attached self r m d Hr Hm Ht Hc), Ho. simpl.
  split; [done|]. rewrite getitem_delitem. by rewrite decide_True.
Qed.

(** C9, as the code has it.  When the renderer returns the empty text and
    has a charset, [rendered_content] returns what encoding the empty text
    with that charset gives, which need not be the empty byte string, and
    deletes no header: the response is as the renderer left it, with the
    Content-Type header if the renderer kept it. *)
Theorem empty_text_keeps_content_type self r m d cs self2 :
  accepted_renderer self = Some (PyRenderer r) ->
  accepted_media_type self = Some m ->
  truthy m = true ->
  renderer_context self = Some (PyDict d) ->
  charset r = Some cs ->
  cs <> "" ->
  render r (data self) m (render_context d) (prepared self r d) =
    (self2, Ok (PyStr "")) ->
  rendered_content render encode self =
    (self2, result_map PyBytes (encode "" cs)) /\
  (getitem "Content-Type" (base self2) =
     getitem "Content-Type" (base (prepared self r d)) ->
   getitem "Content-Type"
     (base (fst (rendered_content render encode self))) =
     Some (content_type_header (content_type self) r)).
Proof.
  intros Hr Hm Ht Hc Hcs Hne Ho.
  rewrite (rendered_content_attached self r m d Hr Hm Ht Hc), Ho.
  rewrite after_render_text, Hcs. simpl.
  rewrite (proj2 (String.eqb_neq cs "") Hne). simpl.
  split; [done|].
  intros Hk. rewrite Hk. exact (prepared_header self r d).
Qed.

(** C10.  The context is only compared with [None]: with the empty
    mapping attached, which is false as a truth value, the assertions pass
    and the renderer is called.  The renderer and the media type are
    tested for truth: attached but false (an empty media type string, for
    one), each fails its assertion. *)
Theorem context_is_only_compared_with_None self :
  truthy (PyDict ∅) = false /\
  truthy (PyStr "") = false /\
  (forall r m,
     accepted_renderer self = Some (PyRenderer r) ->
     accepted_media_type self = Some m ->
     truthy m = true ->
     renderer_context self = Some (PyDict ∅) ->
     rendered_content render encode self =
       after_render encode r
         (render r (data self) m (render_context ∅) (prepared self r ∅))) /\
  (forall v,
     truthy (getattr_or_None (accepted_renderer self)) = true ->
     accepted_media_type self = Some v ->
     truthy v = false ->
     rendered_content render encode self =
       (self, Raise (AssertionError ".accepted_media_type not set on Response"))) /\
  (forall v,
     accepted_renderer self = Some v ->
     truthy v = false ->
     rendered_content render encode self =
       (self, Raise (AssertionError ".accepted_renderer not set on Response"))).
Proof.
  split; [done | split; [done | split; [|split]]].
  - intros r m Hr Hm Ht Hc. by apply rendered_content_attached.
  - intros v Hr Hm Hv. apply rendered_content_no_media_type; [done |].
    by rewrite Hm.
  - intros v Hr Hv. apply rendered_content_no_renderer. by rewrite Hr.
Qed.

End ResponseProperties.

Section Construction.
Context {B : Type} {base_class : HttpResponseBase B}.

Implicit Types (self : Response B) (b : B) (items : list (string * string)).

Lemma init_loop_base items self :
  base (fold_left
          (fun self '(name, value) => set_base (setitem name value) self)
          items self) = assign_headers items (base self).
Proof.
  revert self. induction items as [|[name value] items IH]; intros self.
  - done.
  - simpl. by rewrite IH.
Qed.

Lemma init_loop_data items self :
  data (fold_left
          (fun self '(name, value) => set_base (setitem name value) self)
          items self) = data self /\
  content_type
    (fold_left
       (fun self '(name, value) => set_base (setitem name value) self)
       items self) = content_type self.
Proof.
  revert self. induction items as [|[name value] items IH]; intros self.
  - done.
  - simpl. by destruct (IH (set_base (setitem name value) self)) as [-> ->].
Qed.

(** Once an assignment has raised, the loop is over. *)
Lemma init_loop_raised items (e : PyExc) :
  fold_left
    (fun done '(name, value) =>
       result_bind done (header_assignment (B := B) name value))
    items (Raise e) = Raise e.
Proof. induction items as [|[name value] items IH]; [done|]. by simpl. Qed.

(** The loop returns exactly when the framework accepts every assignment,
    and then it has made them all. *)
Lemma init_loop_accepted items self :
  accepted items ->
  fold_left
    (fun done '(name, value) => result_bind done (header_assignment name value))
    items (Ok self) =
  Ok (fold_left
        (fun self '(name, value) => set_base (setitem name value) self)
        items self).
Proof.
  revert self. induction items as [|[name value] items IH]; intros self Hacc.
  - done.
  - simpl. unfold header_assignment at 2.
    rewrite (Hacc name value) by (by left).
    apply IH. intros n v Hin. apply Hacc. by right.
Qed.

Lemma init_loop_Ok items self built :
  fold_left
    (fun done '(name, value) => result_bind done (header_assignment name value))
    items (Ok self) = Ok built ->
  accepted items /\
  built =
    fold_left (fun self '(name, value) => set_base (setitem name value) self)
      items self.
Proof.
  revert self. induction items as [|[name value] items IH]; intros self.
  - simpl. intros Heq. split; [by intros ? ? []|]. by injection Heq.
  - simpl. unfold header_assignment at 2.
    destruct (header_error name value) as [e|] eqn:He.
    + rewrite init_loop_raised. discriminate.
    + intros Hloop. destruct (IH _ Hloop) as [Hacc ->]. split; [|done].
      intros n v [Heq|Hin]; [by injection Heq as <- <-|by apply Hacc].
Qed.

Lemma init_loop_refused earlier later name value (e : PyExc) self :
  accepted earlier ->
  header_error name value = Some e ->
  fold_left
    (fun done '(name, value) => result_bind done (header_assignment name value))
    (earlier ++ (name, value) :: later)%list (Ok self) = Raise e.
Proof.
  intros Hacc He. rewrite fold_left_app.
  rewrite init_loop_accepted by done. simpl.
  unfold header_assignment at 2. rewrite He. apply init_loop_raised.
Qed.

(** C4, as the code has it.  Once the framework's initialiser has returned:
    for data that is an instance of [Serializer], [__init__] raises its
    assertion error; when the framework accepts every header assignment,
    that is the only case in which it raises an assertion error, and for
    any other data it returns a response whose [data] is the data passed
    and whose headers are those of the framework's initialiser with every
    entry of [headers] assigned, in order; and for data that is no
    serializer, the first assignment the framework refuses ends the
    construction with the framework's exception. *)
Theorem init_rejects_serializer
    (payload status template : PyVal)
    (headers : option (list (string * string)))
    (exc : PyVal) (declared : option string) b :
  base_init status = Ok b ->
  (isinstance_Serializer payload = true ->
   __init__ payload status template headers exc declared =
     Raise (AssertionError serializer_message)) /\
  (accepted (default [] headers) ->
   ((exists msg, __init__ payload status template headers exc declared =
                   Raise (AssertionError msg)) <->
    isinstance_Serializer payload = true) /\
   (isinstance_Serializer payload = false ->
    exists self,
      __init__ payload status template headers exc declared = Ok self /\
      data self = payload /\
      content_type self = declared /\
      base self = assign_headers (default [] headers) b)) /\
  (isinstance_Serializer payload = false ->
   forall (earlier later : list (string * string)) (name value : string)
          (e : PyExc),
     default [] headers = (earlier ++ (name, value) :: later)%list ->
     accepted earlier ->
     header_error name value = Some e ->
     __init__ payload status template headers exc declared = Raise e).
Proof.
  intros Hb. unfold __init__. rewrite Hb. simpl.
  destruct (isinstance_Serializer payload) eqn:Hs.
  - split; [done|]. split; [|done].
    intros _. split; [|done]. split; [done|]. intros _. by eexists.
  - split; [done|]. split.
    + intros Hacc.
      assert (Hreturns : exists self,
        match headers with
        | Some ((_ :: _) as items) =>
            fold_left
              (fun done '(name, value) =>
                 result_bind done (header_assignment name value))
              items
              (Ok {| base := b; data := payload; template_name := template;
                     exception := exc; content_type := declared;
                     accepted_renderer := None; accepted_media_type := None;
                     renderer_context := None |})
        | _ =>
            Ok {| base := b; data := payload; template_name := template;
                  exception := exc; content_type := declared;
                  accepted_renderer := None; accepted_media_type := None;
                  renderer_context := None |}
        end = Ok self /\
        data self = payload /\
        content_type self = declared /\
        base self = assign_headers (default [] headers) b).
      { destruct headers as [[|[n v] items]|]; simpl in Hacc.
        - eexists. by split.
        - eexists. split; [by apply init_loop_accepted|].
          rewrite init_loop_base.
          by destruct (init_loop_data ((n, v) :: items)
            {| base := b; data := payload; template_name := template;
               exception := exc; content_type := declared;
               accepted_renderer := None; accepted_media_type := None;
               renderer_context := None |}) as [-> ->].
        - eexists. by split. }
      destruct Hreturns as (self & Hself & Hrest).
      split.
      * split; [|done]. intros [msg Hmsg]. rewrite Hself in Hmsg. discriminate.
      * intros _. by exists self.
    + intros _ earlier later name value e Hitems Hacc He.
      destruct headers as [[|[n v] items]|]; simpl in Hitems.
      * by destruct earlier.
      * rewrite Hitems. by apply init_loop_refused.
      * by destruct earlier.
Qed.

End Construction.

Section Snapshot.
Context {B : Type}.
Variable super_getstate : Response B -> result (gmap string PyVal).

Implicit Types (state : gmap string PyVal) (keys : list string).

(** The loop of [__getstate__]: the keys listed are gone afterwards, the
    other entries are as before. *)
Lemma drop_keys_lookup keys state key :
  fold_left
    (fun state key =>
       if bool_decide (is_Some (state !! key)) then delete key state
       else state)
    keys state !! key =
  if bool_decide (key ∈ keys) then None else state !! key.
Proof.
  revert state. induction keys as [|k keys IH]; intros state.
  - done.
  - simpl. rewrite IH.
    assert (Hstep : (if bool_decide (is_Some (state !! k))
                     then delete k state else state) = delete k state).
    { destruct (state !! k) eqn:Hk; simpl; [done|].
      symmetry. by apply delete_id. }
    rewrite Hstep.
    destruct (decide (key ∈ keys)) as [Hin|Hnin].
    + rewrite !bool_decide_eq_true_2; [done | | done].
      apply elem_of_cons. by right.
    + rewrite (bool_decide_eq_false_2 (key ∈ keys)) by done.
      destruct (decide (key = k)) as [->|Hne].
      * rewrite bool_decide_eq_true_2 by (apply elem_of_cons; by left).
        apply lookup_delete_eq.
      * rewrite bool_decide_eq_false_2.
        -- by apply lookup_delete_ne.
        -- intros [?|?]%elem_of_cons; done.
Qed.

(** C7.  Whatever attribute dictionary the framework's [__getstate__]
    hands over, the one [Response.__getstate__] returns has none of the
    seven keys [accepted_renderer], [renderer_context], [resolver_match],
    [client], [request], [json] and [wsgi_request], and has the empty list
    under [_closable_objects]; every other entry is as it was handed
    over. *)
Theorem getstate_drops_uncached (self : Response B) state0 :
  super_getstate self = Ok state0 ->
  exists state,
    __getstate__ super_getstate self = Ok state /\
    state !! "accepted_renderer" = None /\
    state !! "renderer_context" = None /\
    state !! "resolver_match" = None /\
    state !! "client" = None /\
    state !! "request" = None /\
    state !! "json" = None /\
    state !! "wsgi_request" = None /\
    state !! "_closable_objects" = Some (PyList []) /\
    (forall key, key ∉ uncached_keys -> key <> "_closable_objects" ->
       state !! key = state0 !! key).
Proof.
  intros Hsuper. unfold __getstate__. rewrite Hsuper. unfold result_bind.
  eexists. split; [reflexivity|].
  repeat (split;
          [rewrite lookup_insert_ne by done; rewrite drop_keys_lookup;
           rewrite bool_decide_eq_true_2;
           [done | unfold uncached_keys; set_solver]|]).
  split; [by rewrite lookup_insert_eq|].
  intros key Hkey Hne. rewrite lookup_insert_ne by done.
  rewrite drop_keys_lookup. by rewrite bool_decide_eq_false_2.
Qed.

End Snapshot.

(** ** The definitions at work *)

#[global] Instance example_headers : HeaderMapping Example.HttpResponse.
Proof.
  split.
  - intros k k' v b. simpl. case_decide as Hk.
    + rewrite Hk. apply lookup_insert_eq.
    + by apply lookup_insert_ne.
  - intros k k' b. simpl. case_decide as Hk.
    + rewrite Hk. apply lookup_delete_eq.
    + by apply lookup_delete_ne.
Qed.

(** A JSON renderer and no declared content type give
    [application/json; charset=utf-8]; a declared [text/plain] wins over
    the renderer. *)
Lemma rendered_content_sets_content_type_witness :
  getitem "Content-Type"
    (base (prepared
             (Example.response (PyInt 1) None
                (Some (PyRenderer Example.json))
                (Some (PyStr "application/json")) (Some (PyDict ∅)))
             Example.json ∅)) = Some "application/json; charset=utf-8" /\
  getitem "Content-Type"
    (base (prepared
             (Example.response (PyInt 1) (Some "text/plain")
                (Some (PyRenderer Example.json))
                (Some (PyStr "application/json")) (Some (PyDict ∅)))
             Example.json ∅)) = Some "text/plain".
Proof.
  split.
  - apply (proj1 (proj2 (proj2
      (rendered_content_sets_content_type Example.render Example.encode
         (Example.response (PyInt 1) None
            (Some (PyRenderer Example.json))
            (Some (PyStr "application/json")) (Some (PyDict ∅)))
         Example.json (PyStr "application/json") ∅
         eq_refl eq_refl eq_refl eq_refl))) "utf-8"); reflexivity.
  - apply (proj1 (proj2
      (rendered_content_sets_content_type Example.render Example.encode
         (Example.response (PyInt 1) (Some "text/plain")
            (Some (PyRenderer Example.json))
            (Some (PyStr "application/json")) (Some (PyDict ∅)))
         Example.json (PyStr "application/json") ∅
         eq_refl eq_refl eq_refl eq_refl)) "text/plain"); reflexivity.
Defined.

(** A response that nothing was attached to. *)
Lemma rendered_content_requires_attachment_witness :
  rendered_content Example.render Example.encode
    (Example.response (PyInt 1) None None None None) =
  (Example.response (PyInt 1) None None None None,
   Raise (AssertionError ".accepted_renderer not set on Response")).
Proof.
  apply (proj1 (proj2
    (rendered_content_requires_attachment Example.render Example.encode
       (Example.response (PyInt 1) None None None None)
       (or_introl eq_refl)))).
  reflexivity.
Defined.

(** Text from a renderer without charset, and from one with UTF-8. *)
Lemma text_result_is_encoded_witness :
  rendered_content Example.render Example.encode
    (Example.response (PyStr "ok") None
       (Some (PyRenderer Example.binary))
       (Some (PyStr "text/plain")) (Some (PyDict ∅))) =
  (prepared
     (Example.response (PyStr "ok") None
        (Some (PyRenderer Example.binary))
        (Some (PyStr "text/plain")) (Some (PyDict ∅)))
     Example.binary ∅,
   Raise (AssertionError
     "renderer returned unicode, and did not specify a charset value.")) /\
  rendered_content Example.render Example.encode
    (Example.response (PyStr "ok") None
       (Some (PyRenderer Example.json))
       (Some (PyStr "text/plain")) (Some (PyDict ∅))) =
  (prepared
     (Example.response (PyStr "ok") None
        (Some (PyRenderer Example.json))
        (Some (PyStr "text/plain")) (Some (PyDict ∅)))
     Example.json ∅,
   Ok (PyBytes [Byte.x6f; Byte.x6b])).
Proof.
  split.
  - apply (proj1
      (text_result_is_encoded Example.render Example.encode
         (Example.response (PyStr "ok") None
            (Some (PyRenderer Example.binary))
            (Some (PyStr "text/plain")) (Some (PyDict ∅)))
         Example.binary (PyStr "text/plain") ∅ _ "ok"
         eq_refl eq_refl eq_refl eq_refl eq_refl)).
    reflexivity.
  - apply (proj2 (proj2
      (text_result_is_encoded Example.render Example.encode
         (Example.response (PyStr "ok") None
            (Some (PyRenderer Example.json))
            (Some (PyStr "text/plain")) (Some (PyDict ∅)))
         Example.json (PyStr "text/plain") ∅ _ "ok"
         eq_refl eq_refl eq_refl eq_refl eq_refl)) "utf-8").
    + reflexivity.
    + discriminate.
Defined.

(** No data: the renderer gives the empty byte string, the header goes. *)
Lemma empty_bytes_remove_content_type_witness :
  getitem "Content-Type"
    (base (fst (rendered_content Example.render Example.encode
                  (Example.response PyNone None
                     (Some (PyRenderer Example.json))
                     (Some (PyStr "application/json")) (Some (PyDict ∅))))))
  = None.
Proof.
  apply (proj2
    (empty_bytes_remove_content_type Example.render Example.encode
       (Example.response PyNone None
          (Some (PyRenderer Example.json))
          (Some (PyStr "application/json")) (Some (PyDict ∅)))
       Example.json (PyStr "application/json") ∅ _
       eq_refl eq_refl eq_refl eq_refl eq_refl)).
Defined.

(** The empty text with UTF-8: encoded to the empty byte string, the header
    stays. *)
Lemma empty_text_keeps_content_type_witness :
  rendered_content Example.render Example.encode
    (Example.response (PyStr "") None
       (Some (PyRenderer Example.json))
       (Some (PyStr "application/json")) (Some (PyDict ∅))) =
  (prepared
     (Example.response (PyStr "") None
        (Some (PyRenderer Example.json))
        (Some (PyStr "application/json")) (Some (PyDict ∅)))
     Example.json ∅,
   Ok (PyBytes [])) /\
  getitem "Content-Type"
    (base (fst (rendered_content Example.render Example.encode
                  (Example.response (PyStr "") None
                     (Some (PyRenderer Example.json))
                     (Some (PyStr "application/json")) (Some (PyDict ∅))))))
  = Some "application/json; charset=utf-8".
Proof.
  pose proof
    (empty_text_keeps_content_type Example.render Example.encode
       (Example.response (PyStr "") None
          (Some (PyRenderer Example.json))
          (Some (PyStr "application/json")) (Some (PyDict ∅)))
       Example.json (PyStr "application/json") ∅ "utf-8" _
       eq_refl eq_refl eq_refl eq_refl eq_refl
       ltac:(discriminate) eq_refl) as [Hbytes Hheader].
  split.
  - rewrite Hbytes. reflexivity.
  - apply Hheader. reflexivity.
Defined.

(** The empty text with UTF-16: the result is the byte order mark, two
    bytes, and true as a truth value; the header stays. *)
Lemma empty_text_is_not_empty_in_utf16 :
  charset Example.utf16_text = Some "utf-16" /\
  rendered_content Example.render Example.encode
    (Example.response (PyStr "") None
       (Some (PyRenderer Example.utf16_text))
       (Some (PyStr "text/plain")) (Some (PyDict ∅))) =
  (prepared
     (Example.response (PyStr "") None
        (Some (PyRenderer Example.utf16_text))
        (Some (PyStr "text/plain")) (Some (PyDict ∅)))
     Example.utf16_text ∅,
   Ok (PyBytes [Byte.xff; Byte.xfe])) /\
  truthy (PyBytes [Byte.xff; Byte.xfe]) = true /\
  getitem "Content-Type"
    (base (fst (rendered_content Example.render Example.encode
                  (Example.response (PyStr "") None
                     (Some (PyRenderer Example.utf16_text))
                     (Some (PyStr "text/plain")) (Some (PyDict ∅))))))
  = Some "text/plain; charset=utf-16".
Proof. repeat split; reflexivity. Qed.

(** The empty context passes; the empty media type does not. *)
Lemma context_is_only_compared_with_None_witness :
  rendered_content Example.render Example.encode
    (Example.response (PyInt 1) None
       (Some (PyRenderer Example.json)) (Some (PyStr "application/json"))
       (Some (PyDict ∅))) =
  (prepared
     (Example.response (PyInt 1) None
        (Some (PyRenderer Example.json)) (Some (PyStr "application/json"))
        (Some (PyDict ∅)))
     Example.json ∅,
   Ok (PyBytes [Byte.x7b; Byte.x7d])) /\
  rendered_content Example.render Example.encode
    (Example.response (PyInt 1) None
       (Some (PyRenderer Example.json)) (Some (PyStr ""))
       (Some (PyDict ∅))) =
  (Example.response (PyInt 1) None
     (Some (PyRenderer Example.json)) (Some (PyStr ""))
     (Some (PyDict ∅)),
   Raise (AssertionError ".accepted_media_type not set on Response")).
Proof.
  split.
  - destruct
      (context_is_only_compared_with_None Example.render Example.encode
         (Example.response (PyInt 1) None
            (Some (PyRenderer Example.json))
            (Some (PyStr "application/json")) (Some (PyDict ∅))))
      as (_ & _ & Hcalled & _).
    rewrite (Hcalled Example.json (PyStr "application/json")
               eq_refl eq_refl eq_refl eq_refl).
    reflexivity.
  - destruct
      (context_is_only_compared_with_None Example.render Example.encode
         (Example.response (PyInt 1) None
            (Some (PyRenderer Example.json)) (Some (PyStr ""))
            (Some (PyDict ∅))))
      as (_ & _ & _ & Hmedia & _).
    apply (Hmedia (PyStr "")); reflexivity.
Defined.

(** Three headers the framework accepts; and a serializer as data. *)
Lemma init_rejects_serializer_witness :
  (exists self : Response Example.HttpResponse,
     __init__ (PyList [PyInt 1]) PyNone PyNone
       (Some [("X-Total", "3"); ("x-total", "4"); ("Allow", "GET")])
       (PyBool false) None = Ok self /\
     data self = PyList [PyInt 1] /\
     content_type self = None /\
     base self =
       assign_headers [("X-Total", "3"); ("x-total", "4"); ("Allow", "GET")]
         (Example.initial 200)) /\
  __init__ (B := Example.HttpResponse) (PySerializer 1) PyNone PyNone None
    (PyBool false) None = Raise (AssertionError serializer_message).
Proof.
  split.
  - refine (proj2 (proj1 (proj2
      (init_rejects_serializer (base_class := Example.http_response)
         (PyList [PyInt 1]) PyNone PyNone
         (Some [("X-Total", "3"); ("x-total", "4"); ("Allow", "GET")])
         (PyBool false) None (Example.initial 200) _)) _) _).
    + reflexivity.
    + intros name value [Heq|[Heq|[Heq|[]]]];
        injection Heq as <- <-; reflexivity.
    + reflexivity.
  - refine (proj1
      (init_rejects_serializer (base_class := Example.http_response)
         (PySerializer 1) PyNone PyNone None (PyBool false) None
         (Example.initial 200) _) _); reflexivity.
Defined.

(** Data that is no serializer, and the construction raises all the same:
    on a status the framework refuses, and on a header value with a line
    break; on the refused status a serializer as data is not reported. *)
Lemma init_raises_without_serializer :
  isinstance_Serializer (PyInt 1) = false /\
  __init__ (B := Example.HttpResponse) (PyInt 1) (PyInt 1000) PyNone None
    (PyBool false) None = Raise (OtherError "ValueError") /\
  __init__ (B := Example.HttpResponse) (PySerializer 1) (PyInt 1000) PyNone
    None (PyBool false) None = Raise (OtherError "ValueError") /\
  __init__ (B := Example.HttpResponse) (PyInt 1) PyNone PyNone
    (Some [("X-Note", Sample.two_lines)]) (PyBool false) None =
    Raise (OtherError "BadHeaderError").
Proof. repeat split; reflexivity. Qed.

(** The snapshot of a response with renderer and context attached. *)
Lemma getstate_drops_uncached_witness :
  exists state,
    __getstate__ Example.getstate
      (Example.response (PyInt 1) None
         (Some (PyRenderer Example.json)) (Some (PyStr "application/json"))
         (Some (PyDict ∅))) = Ok state /\
    state !! "accepted_renderer" = None /\
    state !! "renderer_context" = None /\
    state !! "request" = None /\
    state !! "_closable_objects" = Some (PyList []) /\
    state !! "accepted_media_type" = Some (PyStr "application/json").
Proof.
  destruct
    (getstate_drops_uncached Example.getstate
       (Example.response (PyInt 1) None
          (Some (PyRenderer Example.json)) (Some (PyStr "application/json"))
          (Some (PyDict ∅))) _ eq_refl)
    as (state & Hstate & Hr & Hc & _ & _ & Hq & _ & _ & Hclos & Hother).
  exists state. split; [exact Hstate|]. split; [exact Hr|].
  split; [exact Hc|]. split; [exact Hq|]. split; [exact Hclos|].
  rewrite Hother.
  - reflexivity.
  - unfold uncached_keys. intros Hin.
    repeat (apply elem_of_cons in Hin as [Hin|Hin]; [discriminate|]).
    by apply elem_of_nil in Hin.
  - discriminate.
Defined.

(** * Further properties *)

(** ** rendered_content *)

Section Rendering.
Context {B : Type} {base_class : HttpResponseBase B}
  {mapping : HeaderMapping B}.
Variable render : Renderer -> PyVal -> PyVal -> PyVal -> M B PyVal.
Variable encode : string -> string -> result (list Byte.byte).

Implicit Types (self : Response B) (r : Renderer) (d : gmap string PyVal).

Lemma after_render_other self2 r ret :
  isinstance_str ret = false ->
  after_render encode r (self2, Ok ret) =
    if truthy ret then (self2, Ok ret)
    else (set_base (delitem "Content-Type") self2, Ok ret).
Proof. intros Hret. by destruct ret. Qed.

Lemma prepared_other_header self r d k :
  header_key k <> header_key "Content-Type" ->
  getitem k (base (prepared self r d)) = getitem k (base self).
Proof.
  intros Hk. unfold prepared. simpl. rewrite getitem_setitem.
  by rewrite decide_False.
Qed.

(** X1.  An exception of the renderer leaves [rendered_content] as it is,
    and nothing is undone: the response is as the renderer left it, after
    the Content-Type header had been set for the call. *)
Theorem renderer_error_propagates self r m d self2 e :
  accepted_renderer self = Some (PyRenderer r) ->
  accepted_media_type self = Some m ->
  truthy m = true ->
  renderer_context self = Some (PyDict d) ->
  render r (data self) m (render_context d) (prepared self r d) =
    (self2, Raise e) ->
  rendered_content render encode self = (self2, Raise e) /\
  (self2 = prepared self r d ->
   getitem "Content-Type"
     (base (fst (rendered_content render encode self))) =
     Some (content_type_header (content_type self) r)).
Proof.
  intros Hr Hm Ht Hc Ho.
  rewrite (rendered_content_attached render encode self r m d Hr Hm Ht Hc), Ho.
  split; [done|]. intros ->. apply prepared_header.
Qed.

(** X2.  A result that is not text and is true (non-empty bytes, for one)
    is returned as the renderer gave it, and the response is as the renderer
    left it: no header is deleted. *)
Theorem true_result_is_returned self r m d self2 ret :
  accepted_renderer self = Some (PyRenderer r) ->
  accepted_media_type self = Some m ->
  truthy m = true ->
  renderer_context self = Some (PyDict d) ->
  render r (data self) m (render_context d) (prepared self r d) =
    (self2, Ok ret) ->
  isinstance_str ret = false ->
  truthy ret = true ->
  rendered_content render encode self = (self2, Ok ret).
Proof.
  intros Hr Hm Ht Hc Ho Hs Hret.
  rewrite (rendered_content_attached render encode self r m d Hr Hm Ht Hc), Ho.
  rewrite after_render_other by done. by rewrite Hret.
Qed.

(** X3.  Any result that is not text and is false ([None], [0], [False],
    an empty list or mapping, as well as the empty byte string) has the
    Content-Type header deleted, and is returned as it is: it is not turned
    into bytes. *)
Theorem false_result_removes_content_type self r m d self2 ret :
  accepted_renderer self = Some (PyRenderer r) ->
  accepted_media_type self = Some m ->
  truthy m = true ->
  renderer_context self = Some (PyDict d) ->
  render r (data self) m (render_context d) (prepared self r d) =
    (self2, Ok ret) ->
  isinstance_str ret = false ->
  truthy ret = false ->
  rendered_content render encode self =
    (set_base (delitem "Content-Type") self2, Ok ret) /\
  getitem "Content-Type"
    (base (fst (rendered_content render encode self))) = None.
Proof.
  intros Hr Hm Ht Hc Ho Hs Hret.
  rewrite (rendered_content_attached render encode self r m d Hr Hm Ht Hc), Ho.
  rewrite after_render_other by done. rewrite Hret. simpl.
  split; [done|]. rewrite getitem_delitem. by rewrite decide_True.
Qed.

(** X4.  The renderer is called with the attached context, in which the key
    [response] now refers to the response (whatever was under that key
    before) and every other entry is as it was; the response's own
    [renderer_context] is that same mapping, and its data, its declared
    content type and the attached renderer and media type are untouched. *)
Theorem renderer_context_gets_response self r m d :
  accepted_renderer self = Some (PyRenderer r) ->
  accepted_media_type self = Some m ->
  truthy m = true ->
  renderer_context self = Some (PyDict d) ->
  exists (c : gmap string PyVal) (called_on : Response B),
    rendered_content render encode self =
      after_render encode r (render r (data self) m (PyDict c) called_on) /\
    c !! "response" = Some PyThisResponse /\
    (forall k, k <> "response" -> c !! k = d !! k) /\
    renderer_context called_on = Some (PyDict c) /\
    data called_on = data self /\
    content_type called_on = content_type self /\
    accepted_renderer called_on = accepted_renderer self /\
    accepted_media_type called_on = accepted_media_type self.
Proof.
  intros Hr Hm Ht Hc.
  exists (<["response" := PyThisResponse]> d), (prepared self r d).
  split; [by apply rendered_content_attached|].
  split; [by rewrite lookup_insert_eq|].
  split; [|done].
  intros k Hk. by rewrite lookup_insert_ne.
Qed.

(** X5.  [rendered_content] itself touches no header but Content-Type: a
    header filed under another key reads, at the renderer's call, as it did
    before, and at the end as the renderer left it. *)
Theorem rendered_content_keeps_other_headers self r m d k :
  accepted_renderer self = Some (PyRenderer r) ->
  accepted_media_type self = Some m ->
  truthy m = true ->
  renderer_context self = Some (PyDict d) ->
  header_key k <> header_key "Content-Type" ->
  getitem k (base (prepared self r d)) = getitem k (base self) /\
  (forall self2 outcome,
     render r (data self) m (render_context d) (prepared self r d) =
       (self2, outcome) ->
     getitem k (base (fst (rendered_content render encode self))) =
       getitem k (base self2)).
Proof.
  intros Hr Hm Ht Hc Hk. split; [by apply prepared_other_header|].
  intros self2 outcome Ho.
  rewrite (rendered_content_attached render encode self r m d Hr Hm Ht Hc), Ho.
  destruct outcome as [ret|e]; [|done].
  destruct (isinstance_str ret) eqn:Hs.
  - by rewrite after_render_kept by (by rewrite Hs).
  - rewrite after_render_other by done.
    destruct (truthy ret); [done|]. simpl.
    rewrite getitem_delitem. by rewrite decide_False.
Qed.

End Rendering.

(** ** __init__ *)

Section FreshResponse.
Context {B : Type} {base_class : HttpResponseBase B}.

Implicit Types (self : Response B) (b : B) (items : list (string * string)).

Lemma init_loop_attached items self :
  let built :=
    fold_left (fun self '(name, value) => set_base (setitem name value) self)
      items self in
  accepted_renderer built = accepted_renderer self /\
  accepted_media_type built = accepted_media_type self /\
  renderer_context built = renderer_context self.
Proof.
  revert self. induction items as [|[name value] items IH]; intros self.
  - done.
  - simpl. by destruct (IH (set_base (setitem name value) self)) as (-> & -> & ->).
Qed.

(** What a returned [__init__] tells: the framework's initialiser returned,
    the data is no serializer, and the response is the initial one with the
    headers assigned. *)
Lemma init_Ok (payload status template : PyVal)
    (headers : option (list (string * string)))
    (exc : PyVal) (declared : option string) self :
  __init__ payload status template headers exc declared = Ok self ->
  exists b,
    base_init status = Ok b /\
    isinstance_Serializer payload = false /\
    base self = assign_headers (default [] headers) b /\
    accepted_renderer self = None /\
    accepted_media_type self = None /\
    renderer_context self = None.
Proof.
  unfold __init__. destruct (base_init status) as [b|e]; [|done]. simpl.
  destruct (isinstance_Serializer payload); [done|].
  intros Hself. exists b. split; [done|]. split; [done|].
  destruct headers as [[|[n v] items]|].
  - apply Ok_inj in Hself. by subst self.
  - apply init_loop_Ok in Hself as [_ ->].
    rewrite init_loop_base.
    pose proof (init_loop_attached ((n, v) :: items)
      {| base := b; data := payload; template_name := template;
         exception := exc; content_type := declared;
         accepted_renderer := None; accepted_media_type := None;
         renderer_context := None |}) as Hattached.
    cbv zeta in Hattached. by destruct Hattached as (-> & -> & ->).
  - apply Ok_inj in Hself. by subst self.
Qed.

(** X6.  The framework's initialiser runs first: when it raises,
    [__init__] raises that exception, also for data that is a serializer,
    which is then not reported. *)
Theorem init_base_error_first
    (payload status template : PyVal)
    (headers : option (list (string * string)))
    (exc : PyVal) (declared : option string) (e : PyExc) :
  base_init status = Raise e ->
  __init__ (B := B) payload status template headers exc declared = Raise e.
Proof. intros Hb. unfold __init__. by rewrite Hb. Qed.

Variable render : Renderer -> PyVal -> PyVal -> PyVal -> M B PyVal.
Variable encode : string -> string -> result (list Byte.byte).

(** X7.  A response as [__init__] returns it has no renderer attached:
    reading [rendered_content] from it raises the assertion error about the
    renderer, whatever the arguments of the construction were, and leaves it
    unchanged. *)
Theorem fresh_response_is_not_rendered
    (payload status template : PyVal)
    (headers : option (list (string * string)))
    (exc : PyVal) (declared : option string) self :
  __init__ payload status template headers exc declared = Ok self ->
  rendered_content render encode self =
    (self, Raise (AssertionError ".accepted_renderer not set on Response")).
Proof.
  intros Hinit. apply init_Ok in Hinit as (b & _ & _ & _ & Hr & _).
  apply rendered_content_no_renderer. by rewrite Hr.
Qed.

Context {mapping : HeaderMapping B}.

Lemma assign_headers_other items b name :
  (forall name' value', In (name', value') items ->
     header_key name <> header_key name') ->
  getitem name (assign_headers items b) = getitem name b.
Proof.
  revert b. induction items as [|[n v] items IH]; intros b Hitems.
  - done.
  - simpl. rewrite IH.
    + rewrite getitem_setitem. rewrite decide_False; [done|].
      apply (Hitems n v). by left.
    + intros n' v' Hin. apply (Hitems n' v'). by right.
Qed.

(** X8.  [__init__] changes the headers named in [headers] only: a header
    that no entry of [headers] is filed under reads as the framework's
    initialiser left it; with [headers] absent or empty that is every
    header. *)
Theorem init_keeps_other_headers
    (payload status template : PyVal)
    (headers : option (list (string * string)))
    (exc : PyVal) (declared : option string) self b name :
  base_init status = Ok b ->
  __init__ payload status template headers exc declared = Ok self ->
  (forall name' value', In (name', value') (default [] headers) ->
     header_key name <> header_key name') ->
  getitem name (base self) = getitem name b.
Proof.
  intros Hb Hinit Hother.
  apply init_Ok in Hinit as (b' & Hb' & _ & Hbase & _).
  rewrite Hb in Hb'. injection Hb' as <-.
  rewrite Hbase. by apply assign_headers_other.
Qed.

End FreshResponse.

(** ** __getstate__ *)

Section SnapshotAgain.
Context {B : Type}.
Variable super_getstate : Response B -> result (gmap string PyVal).

Lemma getstate_lookup (self : Response B) (state0 state : gmap string PyVal)
    (key : string) :
  super_getstate self = Ok state0 ->
  __getstate__ super_getstate self = Ok state ->
  state !! key =
    if decide (key = "_closable_objects") then Some (PyList [])
    else if bool_decide (key ∈ uncached_keys) then None
    else state0 !! key.
Proof.
  intros Hsuper. unfold __getstate__. rewrite Hsuper. unfold result_bind.
  intros Hstate. apply Ok_inj in Hstate. subst state. case_decide as Hkey.
  - rewrite Hkey. by rewrite lookup_insert_eq.
  - rewrite lookup_insert_ne by done. apply drop_keys_lookup.
Qed.

(** X9.  Stripping is idempotent: when the framework's [__getstate__] hands
    over a dictionary that [Response.__getstate__] has returned before, the
    result is that dictionary again. *)
Theorem getstate_idempotent (self self' : Response B)
    (state0 state1 : gmap string PyVal) :
  super_getstate self = Ok state0 ->
  __getstate__ super_getstate self = Ok state1 ->
  super_getstate self' = Ok state1 ->
  __getstate__ super_getstate self' = Ok state1.
Proof.
  intros Hsuper Hstate Hsuper'.
  destruct (__getstate__ super_getstate self') as [state2|e] eqn:Hstate'.
  - f_equal. apply map_eq. intros key.
    rewrite (getstate_lookup self' state1 state2 key Hsuper' Hstate').
    rewrite (getstate_lookup self state0 state1 key Hsuper Hstate).
    case_decide; [done|]. by case_bool_decide.
  - unfold __getstate__ in Hstate'. rewrite Hsuper' in Hstate'. discriminate.
Qed.

End SnapshotAgain.

(** ** get_message on a subclass *)

Lemma namespace_agrees_all : forallb namespace_agrees (seqZ 200 400) = true.
Proof. vm_compute. reflexivity. Qed.

Lemma namespace_agrees_in_range (n : Z) :
  200 <= n < 600 -> namespace_agrees n = true.
Proof.
  intros Hn. apply (proj1 (forallb_forall _ _) namespace_agrees_all).
  apply list_elem_of_In, elem_of_seqZ. lia.
Qed.

Lemma own_namespace (n : Z) :
  200 <= n < 600 ->
  HttpResponseMessage !! ("http_" +:+ pretty n) =
    if has_own_message n then Some (PyStr (status_message n)) else None.
Proof.
  intros Hn. pose proof (namespace_agrees_in_range n Hn) as Hag.
  unfold namespace_agrees in Hag.
  apply andb_prop in Hag as [_ Hag].
  destruct (HttpResponseMessage !! ("http_" +:+ pretty n)) as [[]|];
    try discriminate.
  - apply andb_prop in Hag as [-> Hs]. apply String.eqb_eq in Hs. by subst.
  - by destruct (has_own_message n).
Qed.

Lemma get_message_union (own : gmap string PyVal) (n : Z) :
  200 <= n < 600 ->
  get_message (own ∪ HttpResponseMessage) (PyInt n) =
    match own !! ("http_" +:+ pretty n) with
    | Some v => Ok v
    | None =>
        if has_own_message n then Ok (PyStr (status_message n))
        else Ok (default (PyStr http_default) (own !! "http_default"))
    end.
Proof.
  intros Hn. rewrite get_message_attribute by done. unfold getattr.
  destruct (own !! ("http_" +:+ pretty n)) as [v|] eqn:Hown.
  - by rewrite (lookup_union_Some_l _ _ _ _ Hown).
  - rewrite lookup_union_r by done. rewrite own_namespace by done.
    destruct (has_own_message n); [done|].
    destruct (own !! "http_default") as [v|] eqn:Hdefault.
    + by rewrite (lookup_union_Some_l _ _ _ _ Hdefault).
    + by rewrite lookup_union_r by done.
Qed.

(** X10.  On a subclass of [HttpResponseMessage], [get_message] returns for
    a code in [200, 600): the message the subclass defines for that code, if
    it defines one; else the message [HttpResponseMessage] has for the code;
    else the default, which is the subclass's own if it redefines
    [http_default]. *)
Theorem get_message_on_subclass (own : gmap string PyVal) (n : Z) :
  200 <= n < 600 ->
  get_message (subclass own HttpResponseMessage) (PyInt n) =
    match own !! ("http_" +:+ pretty n) with
    | Some v => Ok v
    | None =>
        if has_own_message n then Ok (PyStr (status_message n))
        else Ok (default (PyStr http_default) (own !! "http_default"))
    end.
Proof. intros Hn. unfold subclass. by apply get_message_union. Qed.

(** X11.  A subclass that defines a message for one status code changes the
    result for that code only. *)
Theorem get_message_override_is_local (k n : Z) (v : PyVal) :
  200 <= k < 600 ->
  200 <= n < 600 ->
  get_message
    (subclass {[ "http_" +:+ pretty k := v ]} HttpResponseMessage) (PyInt n) =
    if decide (n = k) then Ok v
    else get_message HttpResponseMessage (PyInt n).
Proof.
  intros Hk Hn. unfold subclass. rewrite get_message_union by done.
  case_decide as Hnk.
  - subst. by rewrite lookup_singleton_eq.
  - rewrite lookup_singleton_ne.
    2: { intros Heq. apply (inj (String.app "http_")) in Heq.
         apply (inj pretty) in Heq. by subst. }
    rewrite lookup_singleton_ne.
    2: { intros Heq. apply (inj (String.app "http_")) in Heq.
         pose proof (namespace_agrees_in_range k Hk) as Hag.
         unfold namespace_agrees in Hag. rewrite Heq in Hag. discriminate. }
    pose proof (get_message_union ∅ n Hn) as Hbase.
    rewrite (left_id_L ∅ (∪)) in Hbase.
    rewrite !lookup_empty in Hbase. by rewrite Hbase.
Qed.

(** X12.  For every code in [200, 600), the message of
    [HttpResponseMessage] is a string that is not empty: the lookup raises no
    attribute error and its result is true as a truth value. *)
Theorem get_message_is_not_empty (n : Z) :
  200 <= n < 600 ->
  exists s,
    get_message HttpResponseMessage (PyInt n) = Ok (PyStr s) /\
    s <> "" /\
    truthy (PyStr s) = true.
Proof.
  intros Hn. exists (status_message n).
  split; [by apply get_message_in_range|].
  pose proof (namespace_agrees_in_range n Hn) as Hag.
  unfold namespace_agrees in Hag.
  apply andb_prop in Hag as [Hag _]. apply andb_prop in Hag as [_ Hs].
  split.
  - apply String.eqb_neq. by apply negb_true_iff.
  - done.
Qed.

(** ** status_text *)

Section StatusText.
Context {B : Type} {base_class : HttpResponseBase B}
  {code_of : HasStatusCode B}.
Variable responses : gmap Z string.
Variable render : Renderer -> PyVal -> PyVal -> PyVal -> M B PyVal.
Variable encode : string -> string -> result (list Byte.byte).

(** The framework keeps the status code apart from the headers. *)
Hypothesis setitem_status :
  forall (k v : string) (b : B), status_code (setitem k v b) = status_code b.
Hypothesis delitem_status :
  forall (k : string) (b : B), status_code (delitem k b) = status_code b.

Lemma assign_headers_status (items : list (string * string)) (b : B) :
  status_code (assign_headers items b) = status_code b.
Proof.
  revert b. induction items as [|[n v] items IH]; intros b; [done|].
  simpl. by rewrite IH, setitem_status.
Qed.

(** X13.  The status text of a response as [__init__] returns it is the
    reason phrase of the status code the framework's initialiser stored, or
    the empty string if the table has none; the headers passed play no
    part. *)
Theorem status_text_after_init
    (payload status template : PyVal)
    (headers : option (list (string * string)))
    (exc : PyVal) (declared : option string) (self : Response B) (b : B) :
  base_init status = Ok b ->
  __init__ payload status template headers exc declared = Ok self ->
  status_text responses self = default "" (responses !! status_code b).
Proof.
  intros Hb Hinit. apply init_Ok in Hinit as (b' & Hb' & _ & Hbase & _).
  rewrite Hb in Hb'. apply Ok_inj in Hb'. subst b'.
  unfold status_text. by rewrite Hbase, assign_headers_status.
Qed.

(** X14.  Reading [rendered_content] does not change the status text, when
    the renderer leaves the status code as it finds it: whether the renderer
    returns or raises, and whether the Content-Type header stays or goes. *)
Theorem status_text_after_rendering
    (self : Response B) (r : Renderer) (m : PyVal) (d : gmap string PyVal)
    (self2 : Response B) (outcome : result PyVal) :
  accepted_renderer self = Some (PyRenderer r) ->
  accepted_media_type self = Some m ->
  truthy m = true ->
  renderer_context self = Some (PyDict d) ->
  render r (data self) m (render_context d) (prepared self r d) =
    (self2, outcome) ->
  status_code (base self2) = status_code (base (prepared self r d)) ->
  status_text responses (fst (rendered_content render encode self)) =
    status_text responses self.
Proof.
  intros Hr Hm Ht Hc Ho Hcode.
  rewrite (rendered_content_attached render encode self r m d Hr Hm Ht Hc), Ho.
  assert (Hprepared : status_code (base (prepared self r d)) =
                      status_code (base self)).
  { unfold prepared. simpl. apply setitem_status. }
  unfold status_text.
  destruct outcome as [ret|e]; [|simpl; by rewrite Hcode, Hprepared].
  destruct (isinstance_str ret) eqn:Hs.
  - rewrite after_render_kept by (by rewrite Hs).
    by rewrite Hcode, Hprepared.
  - rewrite after_render_other by done.
    destruct (truthy ret); simpl.
    + by rewrite Hcode, Hprepared.
    + by rewrite delitem_status, Hcode, Hprepared.
Qed.

End StatusText.

(** ** The further properties at work *)

(** A renderer that fails on a JSON response. *)
Lemma renderer_error_propagates_witness :
  rendered_content Sample.failing_render Example.encode
    (Example.response (PyInt 1) None
       (Some (PyRenderer Example.json))
       (Some (PyStr "application/json")) (Some (PyDict ∅))) =
  (prepared
     (Example.response (PyInt 1) None
        (Some (PyRenderer Example.json))
        (Some (PyStr "application/json")) (Some (PyDict ∅)))
     Example.json ∅,
   Raise (OtherError "ParseError")).
Proof.
  apply (proj1
    (renderer_error_propagates Sample.failing_render Example.encode
       (Example.response (PyInt 1) None
          (Some (PyRenderer Example.json))
          (Some (PyStr "application/json")) (Some (PyDict ∅)))
       Example.json (PyStr "application/json") ∅ _ (OtherError "ParseError")
       eq_refl eq_refl eq_refl eq_refl eq_refl)).
Defined.

(** A two-byte body. *)
Lemma true_result_is_returned_witness :
  rendered_content Example.render Example.encode
    (Example.response (PyInt 1) None
       (Some (PyRenderer Example.json))
       (Some (PyStr "application/json")) (Some (PyDict ∅))) =
  (prepared
     (Example.response (PyInt 1) None
        (Some (PyRenderer Example.json))
        (Some (PyStr "application/json")) (Some (PyDict ∅)))
     Example.json ∅,
   Ok (PyBytes [Byte.x7b; Byte.x7d])).
Proof.
  apply
    (true_result_is_returned Example.render Example.encode
       (Example.response (PyInt 1) None
          (Some (PyRenderer Example.json))
          (Some (PyStr "application/json")) (Some (PyDict ∅)))
       Example.json (PyStr "application/json") ∅ _ _
       eq_refl eq_refl eq_refl eq_refl eq_refl eq_refl eq_refl).
Defined.

(** A renderer that returns [None]. *)
Lemma false_result_removes_content_type_witness :
  snd (rendered_content Sample.null_render Example.encode
         (Example.response (PyInt 1) None
            (Some (PyRenderer Example.json))
            (Some (PyStr "application/json")) (Some (PyDict ∅)))) =
    Ok PyNone /\
  getitem "Content-Type"
    (base (fst (rendered_content Sample.null_render Example.encode
                  (Example.response (PyInt 1) None
                     (Some (PyRenderer Example.json))
                     (Some (PyStr "application/json")) (Some (PyDict ∅))))))
  = None.
Proof.
  destruct
    (false_result_removes_content_type Sample.null_render Example.encode
       (Example.response (PyInt 1) None
          (Some (PyRenderer Example.json))
          (Some (PyStr "application/json")) (Some (PyDict ∅)))
       Example.json (PyStr "application/json") ∅ _ PyNone
       eq_refl eq_refl eq_refl eq_refl eq_refl eq_refl eq_refl)
    as [Hresult Hheader].
  split; [by rewrite Hresult | exact Hheader].
Defined.

(** A context with a view, and something else under [response]. *)
Lemma renderer_context_gets_response_witness :
  exists (c : gmap string PyVal) (called_on : Response Example.HttpResponse),
    rendered_content Example.render Example.encode
      (Example.response (PyInt 1) None
         (Some (PyRenderer Example.json))
         (Some (PyStr "application/json"))
         (Some (PyDict (<["view" := PyObject 3]> {[ "response" := PyNone ]}))))
    = after_render Example.encode Example.json
        (Example.render Example.json (PyInt 1) (PyStr "application/json")
           (PyDict c) called_on) /\
    c !! "response" = Some PyThisResponse /\
    c !! "view" = Some (PyObject 3).
Proof.
  destruct
    (renderer_context_gets_response Example.render Example.encode
       (Example.response (PyInt 1) None
          (Some (PyRenderer Example.json))
          (Some (PyStr "application/json"))
          (Some (PyDict (<["view" := PyObject 3]> {[ "response" := PyNone ]}))))
       Example.json (PyStr "application/json")
       (<["view" := PyObject 3]> {[ "response" := PyNone ]})
       eq_refl eq_refl eq_refl eq_refl)
    as (c & called_on & Hcall & Hresponse & Hother & _).
  exists c, called_on. split; [exact Hcall|]. split; [exact Hresponse|].
  rewrite Hother by discriminate. reflexivity.
Defined.

(** The header [Allow], next to Content-Type. *)
Lemma rendered_content_keeps_other_headers_witness :
  getitem "Allow"
    (base (prepared
             (Example.response (PyInt 1) None
                (Some (PyRenderer Example.json))
                (Some (PyStr "application/json")) (Some (PyDict ∅)))
             Example.json ∅)) =
  getitem "Allow"
    (base (Example.response (PyInt 1) None
             (Some (PyRenderer Example.json))
             (Some (PyStr "application/json")) (Some (PyDict ∅)))).
Proof.
  refine (proj1
    (rendered_content_keeps_other_headers
       (base_class := Example.http_response)
       Example.render Example.encode
       (Example.response (PyInt 1) None
          (Some (PyRenderer Example.json))
          (Some (PyStr "application/json")) (Some (PyDict ∅)))
       Example.json (PyStr "application/json") ∅ "Allow"
       eq_refl eq_refl eq_refl eq_refl _)).
  vm_compute. discriminate.
Defined.

(** A status the framework refuses, with a serializer as data. *)
Lemma init_base_error_first_witness :
  __init__ (B := Example.HttpResponse) (PySerializer 1) (PyInt 1000) PyNone
    None (PyBool false) None = Raise (OtherError "ValueError").
Proof.
  apply (init_base_error_first (base_class := Example.http_response)).
  reflexivity.
Defined.

(** A response with a header, just constructed. *)
Lemma fresh_response_is_not_rendered_witness :
  exists self : Response Example.HttpResponse,
    __init__ (PyInt 1) (PyInt 404) PyNone (Some [("Allow", "GET")])
      (PyBool true) None = Ok self /\
    rendered_content Example.render Example.encode self =
      (self, Raise (AssertionError ".accepted_renderer not set on Response")).
Proof.
  eexists. split; [reflexivity|].
  apply (fresh_response_is_not_rendered (base_class := Example.http_response)
           Example.render Example.encode
           (PyInt 1) (PyInt 404) PyNone (Some [("Allow", "GET")])
           (PyBool true) None).
  reflexivity.
Defined.

(** The default Content-Type of the framework, with [Allow] passed. *)
Lemma init_keeps_other_headers_witness :
  exists self : Response Example.HttpResponse,
    __init__ (PyInt 1) PyNone PyNone (Some [("Allow", "GET")])
      (PyBool false) None = Ok self /\
    getitem "Content-Type" (base self) =
      getitem "Content-Type" (Example.initial 200).
Proof.
  eexists. split; [reflexivity|].
  apply (init_keeps_other_headers (base_class := Example.http_response)
           (PyInt 1) PyNone PyNone (Some [("Allow", "GET")])
           (PyBool false) None).
  - reflexivity.
  - reflexivity.
  - intros name' value' [Heq|[]]. injection Heq as <- <-.
    vm_compute. discriminate.
Defined.

(** A snapshot, taken again of what the first gave. *)
Lemma getstate_idempotent_witness :
  __getstate__ Sample.getstate
    (Example.response PyNone None None None None) =
  Ok (<["data" := PyInt 1]> {[ "_closable_objects" := PyList [] ]}).
Proof.
  apply (getstate_idempotent Sample.getstate
           (Example.response (PyInt 1) None None None None)
           (Example.response PyNone None None None None)
           (<["data" := PyInt 1]>
              (<["request" := PyObject 7]>
                 {[ "_closable_objects" := PyList [PyObject 8] ]}))).
  - reflexivity.
  - vm_compute. reflexivity.
  - reflexivity.
Defined.

(** The subclass's 404, the inherited 200, and its own default at 250. *)
Lemma get_message_on_subclass_witness :
  get_message (subclass Sample.own HttpResponseMessage) (PyInt 404) =
    Ok (PyStr "gone") /\
  get_message (subclass Sample.own HttpResponseMessage) (PyInt 200) =
    Ok (PyStr "success") /\
  get_message (subclass Sample.own HttpResponseMessage) (PyInt 250) =
    Ok (PyStr "?").
Proof.
  split; [|split].
  - rewrite (get_message_on_subclass Sample.own 404) by lia.
    vm_compute. reflexivity.
  - rewrite (get_message_on_subclass Sample.own 200) by lia.
    vm_compute. reflexivity.
  - rewrite (get_message_on_subclass Sample.own 250) by lia.
    vm_compute. reflexivity.
Defined.

(** A message for 418 leaves 404 alone. *)
Lemma get_message_override_is_local_witness :
  get_message
    (subclass {[ "http_" +:+ pretty 418 := PyStr "teapot" ]}
       HttpResponseMessage) (PyInt 404) = Ok (PyStr http_404) /\
  get_message
    (subclass {[ "http_" +:+ pretty 418 := PyStr "teapot" ]}
       HttpResponseMessage) (PyInt 418) = Ok (PyStr "teapot").
Proof.
  split.
  - rewrite (get_message_override_is_local 418 404 (PyStr "teapot")) by lia.
    vm_compute. reflexivity.
  - rewrite (get_message_override_is_local 418 418 (PyStr "teapot")) by lia.
    reflexivity.
Defined.

(** The default message, at 250. *)
Lemma get_message_is_not_empty_witness :
  exists s,
    get_message HttpResponseMessage (PyInt 250) = Ok (PyStr s) /\
    s <> "" /\ truthy (PyStr s) = true.
Proof. apply (get_message_is_not_empty 250). lia. Defined.

(** A 404 with a header. *)
Lemma status_text_after_init_witness :
  exists self : Response Example.HttpResponse,
    __init__ (PyInt 1) (PyInt 404) PyNone (Some [("Allow", "GET")])
      (PyBool true) None = Ok self /\
    status_text Sample.responses self = "Not Found".
Proof.
  eexists. split; [reflexivity|].
  rewrite (status_text_after_init (base_class := Example.http_response)
             (code_of := example_status_code)
             Sample.responses (fun k v b => eq_refl)
             (PyInt 1) (PyInt 404) PyNone (Some [("Allow", "GET")])
             (PyBool true) None _ (Example.initial 404)
             ltac:(reflexivity) ltac:(reflexivity)).
  vm_compute. reflexivity.
Defined.

(** A rendered response with no body keeps its status text. *)
Lemma status_text_after_rendering_witness :
  status_text Sample.responses
    (fst (rendered_content Example.render Example.encode
            (Example.response PyNone None
               (Some (PyRenderer Example.json))
               (Some (PyStr "application/json")) (Some (PyDict ∅))))) =
  "OK".
Proof.
  rewrite (status_text_after_rendering (base_class := Example.http_response)
             (code_of := example_status_code)
             Sample.responses Example.render Example.encode
             (fun k v b => eq_refl) (fun k b => eq_refl)
             (Example.response PyNone None
                (Some (PyRenderer Example.json))
                (Some (PyStr "application/json")) (Some (PyDict ∅)))
             Example.json (PyStr "application/json") ∅ _ _
             eq_refl eq_refl eq_refl eq_refl eq_refl eq_refl).
  vm_compute. reflexivity.
Defined.
